(** * FruitFrost pricing dashboard (app.py): a shallow embedding

    The dashboard is one linear Streamlit script.  Its computational content
    is embedded here:

    - the numeric columns of a pandas frame are lists of rationals; a float64
      result is an exact rational or one of the IEEE special values (NaN, the
      two infinities), so rounding is idealised away and everything else
      (NaN of an empty mean, division by a zero mean) is kept;
    - the two sliders are Python ints, modelled as [Z];
    - the script itself is a computation in a small monad that threads the
      list of rendered elements and stops at [st.stop()] or at an uncaught
      exception. *)

From Stdlib Require Import ZArith QArith Qfield List String Bool Lia Lra Lqa Psatz.
From Stdlib Require Import Setoid Morphisms.
Import ListNotations.


Local Open Scope Q_scope.

(** ** Floating-point results *)

Module Float64.

(** A float64 value with exact finite part. *)
Inductive fp : Type :=
| Num (q : Q)
| NaN
| Inf (negative : bool).

(** Two results are the same number (finite parts compared as rationals). *)
Definition fp_eq (a b : fp) : Prop :=
  match a, b with
  | Num x, Num y => x == y
  | NaN, NaN => True
  | Inf s, Inf t => s = t
  | _, _ => False
  end.

Definition is_finite (a : fp) : bool :=
  match a with Num _ => true | _ => false end.

Definition is_nan (a : fp) : bool :=
  match a with NaN => true | _ => false end.

Definition Qzero (q : Q) : bool := Qeq_bool q 0.
Definition Qneg (q : Q) : bool := negb (Qle_bool 0 q).

(** numpy float64 division: x/0 is an infinity, 0/0 is NaN (a warning, not
    an exception). *)
Definition fdiv (a b : fp) : fp :=
  match a, b with
  | NaN, _ | _, NaN => NaN
  | Num x, Num y =>
      if Qzero y then (if Qzero x then NaN else Inf (Qneg x))
      else Num (x / y)
  | Num x, Inf _ => Num 0
  | Inf s, Num y => Inf (xorb s (Qneg y))
  | Inf _, Inf _ => NaN
  end.

Definition fmul (a b : fp) : fp :=
  match a, b with
  | NaN, _ | _, NaN => NaN
  | Num x, Num y => Num (x * y)
  | Num x, Inf s | Inf s, Num x =>
      if Qzero x then NaN else Inf (xorb s (Qneg x))
  | Inf s, Inf t => Inf (xorb s t)
  end.

(** [a <= b] on floats: false as soon as one side is NaN. *)
Definition fle (a b : fp) : Prop :=
  match a, b with
  | Num x, Num y => x <= y
  | Inf true, Num _ | Inf true, Inf _ => True
  | Num _, Inf false | Inf false, Inf false => True
  | _, _ => False
  end.

End Float64.
Export Float64.

Infix "=f=" := fp_eq (at level 70, no associativity).

(** ** The data model: rows of the four sheets *)

(** One row of Historical_Sales.  Every numeric cell holds a number: a blank
    cell, which pandas reads as NaN, is outside this model. *)
Record SalesRecord : Type := mkSales {
  City : string;
  Month : string;
  Price_per_Unit : Q;
  Units_Sold : Q;
  Revenue : Q;
  Profit : Q
}.

Record CompetitorRecord : Type := mkCompetitor {
  cMonth : string;
  Competitor_Avg_Price : Q
}.

Record ScenarioRecord : Type := mkScenario {
  Price_Option : Q;
  sRevenue : Q;
  sProfit : Q
}.

Record CostComponent : Type := mkCost {
  Component : string;
  Cost_Percentage : Q
}.

(** ** Column reductions: [Series.sum] and [Series.mean] *)

Fixpoint sumQ (xs : list Q) : Q :=
  match xs with
  | [] => 0
  | x :: rest => x + sumQ rest
  end.

Definition count (xs : list Q) : Q := inject_Z (Z.of_nat (List.length xs)).

(** [Series.sum()]: the sum of an empty column is 0. *)
Definition series_sum (xs : list Q) : fp := Num (sumQ xs).

(** [Series.mean()]: sum over count; the mean of an empty column is NaN. *)
Definition series_mean (xs : list Q) : fp :=
  fdiv (Num (sumQ xs)) (Num (count xs)).

(** ** Exceptions and script outcomes *)

(** The exceptions the script can meet; none is caught except
    [FileNotFoundError] inside [load_data]. *)
Inductive exn : Type :=
| FileNotFoundError
| OSError                      (* the workbook exists but cannot be read *)
| ValueError (msg : string)    (* read_excel: worksheet not found *)
| KeyError (column : string)   (* frame[column] on a frame without it *)
| TypeError (msg : string)     (* np.polyfit argument checks *)
| LinAlgError                  (* lstsq: SVD did not converge *)
| PieError.                    (* ax.pie rejects the wedge sizes *)

Inductive outcome (A : Type) : Type :=
| Done (a : A)
| Stopped                      (* st.stop() *)
| Raised (e : exn).

Arguments Done {A} a.
Arguments Stopped {A}.
Arguments Raised {A} e.

(** ** [np.polyfit(x, y, 1)]

    The coefficients below are the exact least-squares values.  numpy
    computes them in float64 (an SVD with cut-off len(x)*eps) and agrees with
    them up to rounding: statements about the estimator are kept to what
    does not depend on the last digits. *)

Module Polyfit.

Definition sq (x : Q) : Q := x * x.

Definition Sxx (xs : list Q) : Q := sumQ (map sq xs).

Definition Sxy (xs ys : list Q) : Q :=
  sumQ (map (fun p => fst p * snd p) (combine xs ys)).

(** Determinant of the normal equations, n*Sxx - Sx^2: zero exactly when the
    Vandermonde matrix [x 1] has rank below 2. *)
Definition det (xs : list Q) : Q :=
  count xs * Sxx xs - sumQ xs * sumQ xs.

(** The ordinary-least-squares line through the points, (slope, intercept),
    solution of the normal equations. *)
Definition ols (xs ys : list Q) : Q * Q :=
  let slope := (count xs * Sxy xs ys - sumQ xs * sumQ ys) / det xs in
  (slope, (sumQ ys - slope * sumQ xs) / count xs).

(** The minimum-norm solution lstsq returns for a rank-one system (all x
    equal to one nonzero value c): after polyfit's column scaling both
    columns coincide up to sign, the two scaled coefficients share the fit
    equally, and unscaling gives slope mean(y)/(2c), intercept mean(y)/2. *)
Definition min_norm (xs ys : list Q) : Q * Q :=
  (sumQ ys / (2 * sumQ xs), sumQ ys / (2 * count xs)).

(** Degree-one polyfit, coefficients highest power first.  The argument
    checks come first and raise TypeError; a zero column (every x is 0)
    turns the scaled matrix into NaNs, on which lstsq raises LinAlgError;
    a rank-deficient system only gives a RankWarning. *)
Definition polyfit1 (xs ys : list Q) : outcome (Q * Q) :=
  match xs with
  | [] => Raised (TypeError "expected non-empty vector for x")
  | _ :: _ =>
      if negb (Nat.eqb (List.length xs) (List.length ys))
      then Raised (TypeError "expected x and y to have same length")
      else if Qzero (Sxx xs) then Raised LinAlgError
      else if Qzero (det xs) then Done (min_norm xs ys)
      else Done (ols xs ys)
  end.

(** Sum of squared residuals of the line y = a*x + b. *)
Definition ssr (a b : Q) (xs ys : list Q) : Q :=
  sumQ (map (fun p => sq (snd p - (a * fst p + b))) (combine xs ys)).

End Polyfit.
Export Polyfit.

(** ** The elasticity estimator (app.py, lines 105-108) *)

(** [np.polyfit(price, demand, 1)[0] * (price.mean() / demand.mean())] *)
Definition elasticity_of (price demand : list Q) : outcome fp :=
  match polyfit1 price demand with
  | Done coeffs =>
      Done (fmul (Num (fst coeffs))
                 (fdiv (series_mean price) (series_mean demand)))
  | Stopped => Stopped
  | Raised e => Raised e
  end.

Definition elasticity (filtered_data : list SalesRecord) : outcome fp :=
  elasticity_of (map Price_per_Unit filtered_data)
                (map Units_Sold filtered_data).

(** ** Filter stage (app.py, lines 49-55) *)

(** [Series.unique()]: distinct values in order of first appearance. *)
Fixpoint unique (l : list string) : list string :=
  match l with
  | [] => []
  | x :: rest => x :: filter (fun y => negb (String.eqb x y)) (unique rest)
  end.

(** [Series.isin(values)] on one cell. *)
Definition isin (values : list string) (c : string) : bool :=
  existsb (String.eqb c) values.

(** [historical[historical["City"].isin(city_filter)]] *)
Definition filter_by_city (city_filter : list string)
    (historical : list SalesRecord) : list SalesRecord :=
  filter (fun r => isin city_filter (City r)) historical.

(** ** Aggregation and metrics (app.py, lines 64-67 and 74-76) *)

Record kpis : Type := mkKpis {
  total_revenue : fp;
  total_profit : fp;
  avg_price : fp;
  total_units : fp
}.

Definition summary (filtered_data : list SalesRecord) : kpis :=
  {| total_revenue := series_sum (map Revenue filtered_data);
     total_profit := series_sum (map Profit filtered_data);
     avg_price := series_mean (map Price_per_Unit filtered_data);
     total_units := series_sum (map Units_Sold filtered_data) |}.

Definition months : list string :=
  ["Jan"; "Feb"; "Mar"; "Apr"; "May"; "Jun";
   "Jul"; "Aug"; "Sep"; "Oct"; "Nov"; "Dec"]%string.

(** The grouped frame: one entry per distinct key with the running sums of
    the two selected columns.  (pandas sorts the keys; [reindex] only looks
    keys up, so the order is not observable.) *)
Definition groups : Type := list (string * (Q * Q)).

Fixpoint add_to_group (k : string) (v : Q * Q) (g : groups) : groups :=
  match g with
  | [] => [(k, v)]
  | (k', w) :: rest =>
      if String.eqb k k'
      then (k', (fst w + fst v, snd w + snd v)) :: rest
      else (k', w) :: add_to_group k v rest
  end.

(** [frame.groupby("Month")[["Revenue", "Profit"]].sum()] *)
Definition groupby_month_sum (rows : list SalesRecord) : groups :=
  fold_left (fun g r => add_to_group (Month r) (Revenue r, Profit r) g)
            rows [].

Fixpoint lookup (k : string) (g : groups) : option (Q * Q) :=
  match g with
  | [] => None
  | (k', w) :: rest => if String.eqb k k' then Some w else lookup k rest
  end.

(** One row of the trend frame: label, Revenue, Profit. *)
Definition trend_row : Type := (string * (fp * fp))%type.

(** [grouped.reindex(labels)]: rows in the order of the labels; a label with
    no group gets NaN in every column; groups under other labels are dropped. *)
Definition reindex (labels : list string) (g : groups) : list trend_row :=
  map (fun l => match lookup l g with
                | Some w => (l, (Num (fst w), Num (snd w)))
                | None => (l, (NaN, NaN))
                end) labels.

Definition trend (filtered_data : list SalesRecord) : list trend_row :=
  reindex months (groupby_month_sum filtered_data).

(** ** The revenue simulator (app.py, lines 119-135) *)

(** [st.slider(label, min_value, max_value, value)]: the widget's current
    position, [value] until the user moves it; a stored position outside the
    bounds is not used, the widget falls back to [value]. *)
Definition slider (min_value max_value value : Z) (position : option Z) : Z :=
  match position with
  | Some v =>
      if ((min_value <=? v) && (v <=? max_value))%Z then v else value
  | None => value
  end.

Record simulation : Type := mkSimulation {
  expected_demand : Z;
  expected_revenue : Z;
  expected_profit : Z
}.

Definition simulator (price_slider cost_per_unit : Z) : simulation :=
  let expected_demand := (15000 - price_slider * 300)%Z in
  {| expected_demand := expected_demand;
     expected_revenue := (price_slider * expected_demand)%Z;
     expected_profit := ((price_slider - cost_per_unit) * expected_demand)%Z |}.

(** ** The presentation surface *)

Inductive shown : Type :=
| IntVal (z : Z)
| FloatVal (f : fp).

Inductive figure : Type :=
| TrendFig (rows : list trend_row)
| ScatterFig (price demand : list Q)
| ScenarioFig (rows : list ScenarioRecord)
| PieFig (rows : list CostComponent)
| BenchmarkFig (rows : list CompetitorRecord) (own_avg_price : fp).

Inductive debug_note : Type :=
| SheetsFound (names : list string)
| FileNotFound.

(** What the page shows, in order.  A metric carries the number handed to the
    format string, not the formatted text. *)
Inductive element : Type :=
| Title
| Markdown
| ErrorBox (note : debug_note)
| SidebarHeader
| Subheader (text : string)
| Metric (label : string) (value : shown)
| Caption
| Pyplot (fig : figure)
| Success.

Definition is_metric_or_chart (e : element) : bool :=
  match e with
  | Metric _ _ | Pyplot _ => true
  | _ => false
  end.

(** ** The script monad: rendered elements so far, and how the run ended *)

Definition script (A : Type) : Type := list element -> outcome A * list element.

Definition ret {A} (a : A) : script A := fun page => (Done a, page).

Definition bind {A B} (m : script A) (k : A -> script B) : script B :=
  fun page =>
    match m page with
    | (Done a, page') => k a page'
    | (Stopped, page') => (Stopped, page')
    | (Raised e, page') => (Raised e, page')
    end.

Definition render (e : element) : script unit :=
  fun page => (Done tt, page ++ [e]).

Definition stop {A} : script A := fun page => (Stopped, page).

Definition raise {A} (e : exn) : script A := fun page => (Raised e, page).

Definition lift {A} (o : outcome A) : script A := fun page => (o, page).

(** [try: body  except FileNotFoundError: handler] *)
Definition except_FileNotFoundError {A} (body handler : script A) : script A :=
  fun page =>
    match body page with
    | (Raised FileNotFoundError, page') => handler page'
    | r => r
    end.

Notation "x <- m ;; k" := (bind m (fun x => k))
  (at level 61, m at next level, right associativity).
Notation "m ;;; k" := (bind m (fun _ => k))
  (at level 61, right associativity).

(** ** The data loader (app.py, lines 20-42) *)

(** A sheet, by its column schema. *)
Inductive sheet : Type :=
| SalesSheet (rows : list SalesRecord)
| CompetitorSheet (rows : list CompetitorRecord)
| ScenarioSheet (rows : list ScenarioRecord)
| CostSheet (rows : list CostComponent).

(** What is found under the fixed path FruitFrost_Pricing_Dashboard_Master.xlsx. *)
Inductive source_file : Type :=
| Absent
| Unreadable
| Workbook (sheets : list (string * sheet)).

Fixpoint find_sheet (name : string) (sheets : list (string * sheet))
    : option sheet :=
  match sheets with
  | [] => None
  | (n, s) :: rest => if String.eqb name n then Some s else find_sheet name rest
  end.

(** [pd.ExcelFile(file_path).sheet_names] *)
Definition ExcelFile (f : source_file) : script (list string) :=
  match f with
  | Absent => raise FileNotFoundError
  | Unreadable => raise OSError
  | Workbook sheets => ret (map fst sheets)
  end.

(** [pd.read_excel(file_path, sheet_name=name)] *)
Definition read_excel (f : source_file) (name : string) : script sheet :=
  match f with
  | Absent => raise FileNotFoundError
  | Unreadable => raise OSError
  | Workbook sheets =>
      match find_sheet name sheets with
      | Some s => ret s
      | None => raise (ValueError ("Worksheet named '" ++ name ++ "' not found"))
      end
  end.

(** The four sheet names the loader asks for. *)
Definition required_sheets : list string :=
  ["Historical_Sales"; "Lost_file"; "Scenario_Simulation"; "Cost_Structure"]%string.

(** [load_data()], on a cold cache. *)
Definition load_data (f : source_file) : script (sheet * sheet * sheet * sheet) :=
  except_FileNotFoundError
    (names <- ExcelFile f ;;
     render (ErrorBox (SheetsFound names)))
    (render (ErrorBox FileNotFound) ;;; stop) ;;;
  historical <- read_excel f "Historical_Sales" ;;
  competitor <- read_excel f "Lost_file" ;;
  scenario <- read_excel f "Scenario_Simulation" ;;
  cost <- read_excel f "Cost_Structure" ;;
  ret (historical, competitor, scenario, cost).

(** ** Column access by schema *)

(** [historical["City"]], the first column the script asks of the sales
    frame; the other five columns exist whenever this one does. *)
Definition sales_frame (s : sheet) : script (list SalesRecord) :=
  match s with
  | SalesSheet rows => ret rows
  | _ => raise (KeyError "City")
  end.

(** [scenario["Price_Option"]] *)
Definition scenario_frame (s : sheet) : script (list ScenarioRecord) :=
  match s with
  | ScenarioSheet rows => ret rows
  | _ => raise (KeyError "Price_Option")
  end.

(** [cost["Cost_Percentage"]] *)
Definition cost_frame (s : sheet) : script (list CostComponent) :=
  match s with
  | CostSheet rows => ret rows
  | _ => raise (KeyError "Cost_Percentage")
  end.

(** [competitor["Month"]], then [competitor["Competitor_Avg_Price"]] *)
Definition competitor_frame (s : sheet) : script (list CompetitorRecord) :=
  match s with
  | CompetitorSheet rows => ret rows
  | SalesSheet _ => raise (KeyError "Competitor_Avg_Price")
  | _ => raise (KeyError "Month")
  end.

(** [ax.pie(cost["Cost_Percentage"], labels=cost["Component"], ...)] draws
    only non-negative wedge sizes, and at least one: a negative percentage or
    an empty column ends in an exception of matplotlib (ValueError or
    TypeError, by case and version), recorded here as [PieError]. *)
Definition pie_accepts (costs : list CostComponent) : bool :=
  match costs with
  | [] => false
  | _ :: _ => forallb (fun c => Qle_bool 0 (Cost_Percentage c)) costs
  end.

Definition pie (costs : list CostComponent) : script unit :=
  if pie_accepts costs then render (Pyplot (PieFig costs)) else raise PieError.

(** ** The whole script *)

(** The widget state of one run. *)
Record inputs : Type := mkInputs {
  city_choice : option (list string);   (* None: the multiselect default *)
  price_position : option Z;
  cost_position : option Z
}.

Definition multiselect (options default : list string)
    (choice : option (list string)) : list string :=
  match choice with
  | Some selected => selected
  | None => default
  end.

Definition price_slider (ui : inputs) : Z := slider 20 35 25 (price_position ui).
Definition cost_per_unit (ui : inputs) : Z := slider 8 18 12 (cost_position ui).

(** The multiselect over the distinct cities, all selected by default. *)
Definition city_filter (ui : inputs) (historical : list SalesRecord)
    : list string :=
  multiselect (unique (map City historical)) (unique (map City historical))
              (city_choice ui).

(** The script below the loader (app.py, lines 44-194), on the four loaded
    frames. *)
Definition dashboard (loaded : sheet * sheet * sheet * sheet) (ui : inputs)
    : script unit :=
  match loaded with
  | (historical, competitor, scenario, cost) =>
    render SidebarHeader ;;;
    hist <- sales_frame historical ;;
    let filtered_data := filter_by_city (city_filter ui hist) hist in
    render (Subheader "Executive Summary") ;;;
    render (Metric "Total Revenue" (FloatVal (total_revenue (summary filtered_data)))) ;;;
    render (Metric "Total Profit" (FloatVal (total_profit (summary filtered_data)))) ;;;
    render (Metric "Avg Price" (FloatVal (avg_price (summary filtered_data)))) ;;;
    render (Metric "Total Units Sold" (FloatVal (total_units (summary filtered_data)))) ;;;
    render (Subheader "Revenue & Profit Trend") ;;;
    render (Pyplot (TrendFig (trend filtered_data))) ;;;
    render (Subheader "Pricing vs Demand Analysis") ;;;
    render (Pyplot (ScatterFig (map Price_per_Unit filtered_data)
                               (map Units_Sold filtered_data))) ;;;
    render (Subheader "Price Elasticity Estimation") ;;;
    e <- lift (elasticity filtered_data) ;;
    render (Metric "Estimated Price Elasticity" (FloatVal e)) ;;;
    render Caption ;;;
    render (Subheader "Revenue Optimisation Simulator") ;;;
    let sim := simulator (price_slider ui) (cost_per_unit ui) in
    render (Metric "Expected Demand" (IntVal (expected_demand sim))) ;;;
    render (Metric "Expected Revenue" (IntVal (expected_revenue sim))) ;;;
    render (Metric "Expected Profit" (IntVal (expected_profit sim))) ;;;
    render (Subheader "Pricing Scenario Analysis") ;;;
    scen <- scenario_frame scenario ;;
    render (Pyplot (ScenarioFig scen)) ;;;
    render (Subheader "Cost Structure Breakdown") ;;;
    costs <- cost_frame cost ;;
    pie costs ;;;
    render (Subheader "Competitive Pricing Benchmark") ;;;
    comp <- competitor_frame competitor ;;
    render (Pyplot (BenchmarkFig comp (series_mean (map Price_per_Unit filtered_data)))) ;;;
    render Success
  end.

Definition app (f : source_file) (ui : inputs) : script unit :=
  render Title ;;;
  render Markdown ;;;
  loaded <- load_data f ;;
  dashboard loaded ui.

(** One run of the script on an empty page. *)
Definition run (f : source_file) (ui : inputs) : outcome unit * list element :=
  app f ui [].

(** The simulator metrics a page shows, if it shows them. *)
Fixpoint metric_value (label : string) (page : list element) : option shown :=
  match page with
  | [] => None
  | Metric l v :: rest =>
      if String.eqb label l then Some v else metric_value label rest
  | _ :: rest => metric_value label rest
  end.

Definition shown_simulation (page : list element) : option simulation :=
  match metric_value "Expected Demand" page,
        metric_value "Expected Revenue" page,
        metric_value "Expected Profit" page with
  | Some (IntVal d), Some (IntVal r), Some (IntVal p) =>
      Some (mkSimulation d r p)
  | _, _, _ => None
  end.

(** ** Sample data used to exercise the definitions *)

Definition sample_sales : list SalesRecord :=
  [mkSales "Pune" "Jan" 20 9000 180000 90000;
   mkSales "Pune" "Mar" 25 7500 187500 97500;
   mkSales "Delhi" "Jan" 30 6000 180000 108000].

Definition sample_book : source_file :=
  Workbook [("Historical_Sales"%string, SalesSheet sample_sales);
            ("Lost_file"%string, CompetitorSheet [mkCompetitor "Jan" 24]);
            ("Scenario_Simulation"%string,
             ScenarioSheet [mkScenario 25 187500 97500]);
            ("Cost_Structure"%string, CostSheet [mkCost "Fruit" 100])].

(** A workbook with the real sheet name for competitor prices: the loader
    does not find the sheet it asks for. *)
Definition book_without_Lost_file : source_file :=
  Workbook [("Historical_Sales"%string, SalesSheet sample_sales);
            ("Competitor_Prices"%string, CompetitorSheet [mkCompetitor "Jan" 24]);
            ("Scenario_Simulation"%string,
             ScenarioSheet [mkScenario 25 187500 97500]);
            ("Cost_Structure"%string, CostSheet [mkCost "Fruit" 100])].

(** A sales sheet with a month of net refunds. *)
Definition refund_sales : list SalesRecord :=
  [mkSales "Pune" "Jan" 20 9000 180000 90000;
   mkSales "Delhi" "Jan" 30 0 (-600) (-900)].


(** ** Vocabulary of the properties *)

(** The run ended before the end of the script. *)
Definition halted {A} (o : outcome A) : Prop :=
  match o with
  | Done _ => False
  | Stopped | Raised _ => True
  end.

(** The workbook is missing or unreadable, or lacks a sheet the loader
    asks for. *)
Definition load_fails (f : source_file) : Prop :=
  f = Absent \/ f = Unreadable \/
  exists sheets name,
    f = Workbook sheets /\ In name required_sheets /\
    find_sheet name sheets = None.

Definition no_metric_or_chart (page : list element) : Prop :=
  forallb (fun e => negb (is_metric_or_chart e)) page = true.

(** The arithmetic mean of a nonempty column. *)
Definition mean (xs : list Q) : Q := sumQ xs / count xs.

(** Sum of one column over the rows of one month. *)
Definition month_total (column : SalesRecord -> Q) (m : string)
    (rows : list SalesRecord) : Q :=
  sumQ (map column (filter (fun r => String.eqb m (Month r)) rows)).

Definition month_present (m : string) (rows : list SalesRecord) : bool :=
  existsb (fun r => String.eqb m (Month r)) rows.

(** Sum of Revenue over the rows whose City is selected, written as a sum
    over the whole sheet. *)
Definition selected_revenue (selection : list string)
    (historical : list SalesRecord) : Q :=
  sumQ (map (fun r => if isin selection (City r) then Revenue r else 0)
            historical).

Definition refund_book : source_file :=
  Workbook [("Historical_Sales"%string, SalesSheet refund_sales);
            ("Lost_file"%string, CompetitorSheet []);
            ("Scenario_Simulation"%string, ScenarioSheet []);
            ("Cost_Structure"%string, CostSheet [])].

(** The running sums of one month while the rows are scanned: nothing until
    the first row of that month is met. *)
Definition scan_month (m : string) (acc : option (Q * Q)) (r : SalesRecord)
    : option (Q * Q) :=
  if String.eqb m (Month r)
  then Some (match acc with
             | Some w => (fst w + Revenue r, snd w + Profit r)
             | None => (Revenue r, Profit r)
             end)
  else acc.

(** What the trend frame must hold in the row of one label. *)
Definition trend_row_ok (rows : list SalesRecord) (row : trend_row) : Prop :=
  if month_present (fst row) rows
  then fst (snd row) =f= Num (month_total Revenue (fst row) rows)
       /\ snd (snd row) =f= Num (month_total Profit (fst row) rows)
  else snd row = (NaN, NaN).

(** Sum of the squares of the values a*x + b over a column. *)
Definition line_sq (a b : Q) (xs : list Q) : Q :=
  sumQ (map (fun x => sq (a * x + b)) xs).

(** The price column carries no slope information: fewer than two
    observations, or all prices equal. *)
Definition degenerate (price : list Q) : Prop :=
  (List.length price < 2)%nat \/
  forall a b, In a price -> In b price -> a == b.

Definition crashed {A} (o : outcome A) : Prop :=
  exists e, o = Raised e.


(** ** Vocabulary of the further properties *)

(** The value a line chart draws for an entry: a NaN point is left out. *)
Definition finite_or_zero (v : fp) : Q :=
  match v with
  | Num q => q
  | _ => 0
  end.

Definition trend_revenue_total (rows : list trend_row) : Q :=
  sumQ (map (fun row => finite_or_zero (fst (snd row))) rows).

Definition trend_profit_total (rows : list trend_row) : Q :=
  sumQ (map (fun row => finite_or_zero (snd (snd row))) rows).

(** The row's Month is one of the twelve labels of the trend. *)
Definition in_months (r : SalesRecord) : bool :=
  existsb (String.eqb (Month r)) months.

Definition is_metric (e : element) : bool :=
  match e with Metric _ _ => true | _ => false end.

Definition is_chart (e : element) : bool :=
  match e with Pyplot _ => true | _ => false end.

Definition metrics_shown (page : list element) : nat :=
  List.length (filter is_metric page).

Definition charts_shown (page : list element) : nat :=
  List.length (filter is_chart page).

(** The first sheet name, in the loader's reading order, that the workbook
    lacks. *)
Definition first_missing (sheets : list (string * sheet)) : option string :=
  find (fun name => match find_sheet name sheets with
                    | None => true
                    | Some _ => false
                    end) required_sheets.

(** The four frames are found under the names the loader asks for, the
    sales sheet with its own schema. *)
Definition loads (sheets : list (string * sheet)) (hist : list SalesRecord)
    (competitor scenario cost : sheet) : Prop :=
  find_sheet "Historical_Sales" sheets = Some (SalesSheet hist)
  /\ find_sheet "Lost_file" sheets = Some competitor
  /\ find_sheet "Scenario_Simulation" sheets = Some scenario
  /\ find_sheet "Cost_Structure" sheets = Some cost.

(** What the script has rendered when it reaches the elasticity line. *)
Definition page_before_elasticity (sheet_names : list string)
    (filtered_data : list SalesRecord) : list element :=
  [Title; Markdown; ErrorBox (SheetsFound sheet_names); SidebarHeader;
   Subheader "Executive Summary";
   Metric "Total Revenue" (FloatVal (total_revenue (summary filtered_data)));
   Metric "Total Profit" (FloatVal (total_profit (summary filtered_data)));
   Metric "Avg Price" (FloatVal (avg_price (summary filtered_data)));
   Metric "Total Units Sold" (FloatVal (total_units (summary filtered_data)));
   Subheader "Revenue & Profit Trend";
   Pyplot (TrendFig (trend filtered_data));
   Subheader "Pricing vs Demand Analysis";
   Pyplot (ScatterFig (map Price_per_Unit filtered_data)
                      (map Units_Sold filtered_data));
   Subheader "Price Elasticity Estimation"].

Definition is_sales_sheet (s : sheet) : bool :=
  match s with SalesSheet _ => true | _ => false end.

Definition is_scenario_sheet (s : sheet) : bool :=
  match s with ScenarioSheet _ => true | _ => false end.

Definition is_cost_sheet (s : sheet) : bool :=
  match s with CostSheet _ => true | _ => false end.

Definition is_competitor_sheet (s : sheet) : bool :=
  match s with CompetitorSheet _ => true | _ => false end.


(** A month without sales: prices are set, nothing is sold. *)
Definition idle_sales : list SalesRecord :=
  [mkSales "Pune" "Jan" 20 0 0 0;
   mkSales "Pune" "Feb" 30 0 0 0].

(** A sales sheet whose price column was never filled in. *)
Definition unpriced_sales : list SalesRecord :=
  [mkSales "Pune" "Jan" 0 9000 0 0;
   mkSales "Delhi" "Jan" 0 6000 0 0].
(** * The simulator *)

Section Simulator.

Local Open Scope Z_scope.

Lemma expected_demand_eq (price cost : Z) :
  expected_demand (simulator price cost) = 15000 - price * 300.
Proof. reflexivity. Qed.

Lemma expected_revenue_eq (price cost : Z) :
  expected_revenue (simulator price cost) = price * (15000 - price * 300).
Proof. reflexivity. Qed.

Lemma expected_profit_eq (price cost : Z) :
  expected_profit (simulator price cost)
  = (price - cost) * (15000 - price * 300).
Proof. reflexivity. Qed.

(** C2: within the slider bounds the simulator returns the linear demand
    15000 - 300*price, revenue price*demand and profit (price-cost)*demand;
    at price 25 and cost 12 these are 7500, 187500 and 97500. *)
Theorem simulator_outputs (price cost : Z) :
  20 <= price <= 35 -> 8 <= cost <= 18 ->
  simulator price cost
  = {| expected_demand := 15000 - price * 300;
       expected_revenue := price * (15000 - price * 300);
       expected_profit := (price - cost) * (15000 - price * 300) |}
  /\ simulator 25 12 = mkSimulation 7500 187500 97500.
Proof.
  intros _ _. split; reflexivity.
Qed.

Lemma simulator_outputs_witness :
  20 <= 25 <= 35 /\ 8 <= 12 <= 18 /\
  expected_demand (simulator 25 12) = 7500.
Proof.
  split; [lia|]. split; [lia|].
  destruct (simulator_outputs 25 12) as [H _];
    [lia | lia |].
  rewrite H. reflexivity.
Defined.

(** C6: for a price within [20,35] the expected demand is never negative:
    it is 9000 at price 20, at least 4500 everywhere and exactly 4500 at
    price 35, so a floor at zero would change nothing. *)
Theorem expected_demand_bounds (price cost : Z) :
  20 <= price <= 35 ->
  4500 <= expected_demand (simulator price cost) <= 9000
  /\ expected_demand (simulator 20 cost) = 9000
  /\ expected_demand (simulator 35 cost) = 4500
  /\ Z.max 0 (expected_demand (simulator price cost))
     = expected_demand (simulator price cost).
Proof.
  intros Hp. rewrite !expected_demand_eq.
  repeat split; lia.
Qed.

Lemma expected_demand_bounds_witness :
  20 <= 28 <= 35 /\ 4500 <= expected_demand (simulator 28 12) <= 9000.
Proof.
  split; [lia|].
  apply (expected_demand_bounds 28 12). lia.
Defined.

(** C10: revenue minus profit is the total cost, cost_per_unit times the
    expected demand, for every price and cost. *)
Theorem revenue_minus_profit (price cost : Z) :
  expected_revenue (simulator price cost)
  - expected_profit (simulator price cost)
  = cost * expected_demand (simulator price cost).
Proof.
  rewrite expected_revenue_eq, expected_profit_eq, expected_demand_eq.
  ring.
Qed.

End Simulator.

(** * The loader and the script *)

(** Stepping through the script: the frames and their reductions are kept
    folded while the page is computed. *)
Ltac hold_frames :=
  cbn -[elasticity summary trend filter_by_city city_filter simulator
        series_mean price_slider cost_per_unit pie_accepts].

Ltac draw_charts s k c :=
  destruct s, k, c; hold_frames; try destruct (pie_accepts _); hold_frames.

Section Script.

Lemma load_data_absent (page : list element) :
  load_data Absent page = (Stopped, page ++ [ErrorBox FileNotFound]).
Proof. reflexivity. Qed.

Lemma load_data_unreadable (page : list element) :
  load_data Unreadable page = (Raised OSError, page).
Proof. reflexivity. Qed.

(** With the file readable, the loader shows the sheet names and then reads
    the four sheets in order. *)
Lemma load_data_workbook (sheets : list (string * sheet)) (page : list element) :
  load_data (Workbook sheets) page
  = let page' := page ++ [ErrorBox (SheetsFound (map fst sheets))] in
    match find_sheet "Historical_Sales" sheets,
          find_sheet "Lost_file" sheets,
          find_sheet "Scenario_Simulation" sheets,
          find_sheet "Cost_Structure" sheets with
    | Some h, Some c, Some s, Some k => (Done (h, c, s, k), page')
    | None, _, _, _ =>
        (Raised (ValueError "Worksheet named 'Historical_Sales' not found"), page')
    | _, None, _, _ =>
        (Raised (ValueError "Worksheet named 'Lost_file' not found"), page')
    | _, _, None, _ =>
        (Raised (ValueError "Worksheet named 'Scenario_Simulation' not found"), page')
    | _, _, _, None =>
        (Raised (ValueError "Worksheet named 'Cost_Structure' not found"), page')
    end.
Proof.
  unfold load_data, except_FileNotFoundError, bind, read_excel, ExcelFile,
    render, ret, raise.
  cbn -[find_sheet].
  destruct (find_sheet "Historical_Sales" sheets);
    destruct (find_sheet "Lost_file" sheets);
    destruct (find_sheet "Scenario_Simulation" sheets);
    destruct (find_sheet "Cost_Structure" sheets); reflexivity.
Qed.

(** A failed load adds at most the loader's own message to the page. *)
Lemma load_failure_page (f : source_file) (page : list element) :
  load_fails f ->
  halted (fst (load_data f page)) /\
  (snd (load_data f page) = page \/
   exists note, snd (load_data f page) = page ++ [ErrorBox note]).
Proof.
  intros [-> | [-> | (sheets & name & -> & Hin & Hnone)]].
  - rewrite load_data_absent. split; [exact I|]. right. now eexists.
  - rewrite load_data_unreadable. split; [exact I|]. now left.
  - rewrite load_data_workbook. cbv zeta.
    assert (Hcase : find_sheet "Historical_Sales" sheets = None
                 \/ find_sheet "Lost_file" sheets = None
                 \/ find_sheet "Scenario_Simulation" sheets = None
                 \/ find_sheet "Cost_Structure" sheets = None).
    { simpl in Hin.
      destruct Hin as [<- | [<- | [<- | [<- | []]]]]; auto. }
    destruct (find_sheet "Historical_Sales" sheets);
      destruct (find_sheet "Lost_file" sheets);
      destruct (find_sheet "Scenario_Simulation" sheets);
      destruct (find_sheet "Cost_Structure" sheets);
      try (destruct Hcase as [H | [H | [H | H]]]; discriminate H);
      (split; [exact I|]; right; now eexists).
Qed.

Lemma run_unfold (f : source_file) (ui : inputs) :
  run f ui
  = match load_data f [Title; Markdown] with
    | (Done loaded, page) => dashboard loaded ui page
    | (Stopped, page) => (Stopped, page)
    | (Raised e, page) => (Raised e, page)
    end.
Proof. reflexivity. Qed.

(** C9: a missing or unreadable workbook, or a workbook without one of the
    sheets the loader asks for, ends the run at the loader: the run is
    halted, and the page holds the title, the markdown line and the
    loader's message only, no metric and no chart. *)
Theorem load_failure_halts (f : source_file) (ui : inputs) :
  load_fails f ->
  halted (fst (run f ui))
  /\ no_metric_or_chart (snd (run f ui))
  /\ (forall e, In e (snd (run f ui)) ->
        e = Title \/ e = Markdown \/ exists note, e = ErrorBox note).
Proof.
  intros Hf. rewrite run_unfold.
  destruct (load_failure_page f [Title; Markdown] Hf) as [Hhalt Hpage].
  destruct (load_data f [Title; Markdown]) as [[loaded | | e] page];
    cbn [fst snd] in *; try contradiction;
    (split; [exact I|]);
    destruct Hpage as [-> | [note ->]]; (split; [reflexivity|]);
    cbn; intros e' Hin; intuition eauto.
Qed.

Lemma load_failure_halts_witness :
  load_fails book_without_Lost_file /\
  halted (fst (run book_without_Lost_file (mkInputs None None None))).
Proof.
  assert (H : load_fails book_without_Lost_file).
  { right; right.
    exists [("Historical_Sales"%string, SalesSheet sample_sales);
            ("Competitor_Prices"%string,
             CompetitorSheet [mkCompetitor "Jan" 24]);
            ("Scenario_Simulation"%string,
             ScenarioSheet [mkScenario 25 187500 97500]);
            ("Cost_Structure"%string, CostSheet [mkCost "Fruit" 100])],
           "Lost_file"%string.
    split; [reflexivity|]. split; [simpl; auto | reflexivity]. }
  split; [exact H|].
  exact (proj1 (load_failure_halts _ (mkInputs None None None) H)).
Defined.

(** Whatever the workbook and the widgets, a page either lacks the
    simulator metrics or shows the simulator's values at the two sliders. *)
Lemma run_simulation (f : source_file) (ui : inputs) :
  shown_simulation (snd (run f ui)) = None \/
  shown_simulation (snd (run f ui))
  = Some (simulator (price_slider ui) (cost_per_unit ui)).
Proof.
  rewrite run_unfold.
  destruct f as [| | sheets].
  - left; reflexivity.
  - left; reflexivity.
  - rewrite load_data_workbook. cbv zeta.
    destruct (find_sheet "Historical_Sales" sheets) as [h|];
      destruct (find_sheet "Lost_file" sheets) as [c|];
      destruct (find_sheet "Scenario_Simulation" sheets) as [s|];
      destruct (find_sheet "Cost_Structure" sheets) as [k|];
      try (left; reflexivity).
    unfold dashboard, pie, bind, render, lift, ret, raise.
    destruct h as [hist | | |]; try (left; reflexivity).
    cbn -[elasticity summary trend filter_by_city city_filter simulator
          series_mean price_slider cost_per_unit pie_accepts].
    destruct (elasticity _) as [e | | e]; try (left; reflexivity).
    right.
    draw_charts s k c; reflexivity.
Qed.

(** The simulator section is reached as soon as the sales sheet is found
    with its schema, the other three sheets are found, and the elasticity
    line does not raise. *)
Lemma run_reaches_simulation (sheets : list (string * sheet))
    (hist : list SalesRecord) (c s k : sheet) (ui : inputs) (e : fp) :
  find_sheet "Historical_Sales" sheets = Some (SalesSheet hist) ->
  find_sheet "Lost_file" sheets = Some c ->
  find_sheet "Scenario_Simulation" sheets = Some s ->
  find_sheet "Cost_Structure" sheets = Some k ->
  elasticity (filter_by_city (city_filter ui hist) hist) = Done e ->
  shown_simulation (snd (run (Workbook sheets) ui))
  = Some (simulator (price_slider ui) (cost_per_unit ui)).
Proof.
  intros Hh Hc Hs Hk He.
  rewrite run_unfold, load_data_workbook. cbv zeta.
  rewrite Hh, Hc, Hs, Hk.
  unfold dashboard, pie, bind, render, lift, ret, raise.
  cbn -[elasticity summary trend filter_by_city city_filter simulator
        series_mean price_slider cost_per_unit pie_accepts].
  rewrite He.
  draw_charts s k c; reflexivity.
Qed.

(** C8: two runs with the same two slider values show the same expected
    demand, revenue and profit, whatever workbook and city selection each
    run has; the values are those of the simulator at the sliders. *)
Theorem simulation_deterministic (f1 f2 : source_file) (ui1 ui2 : inputs)
    (s1 s2 : simulation) :
  price_slider ui1 = price_slider ui2 ->
  cost_per_unit ui1 = cost_per_unit ui2 ->
  shown_simulation (snd (run f1 ui1)) = Some s1 ->
  shown_simulation (snd (run f2 ui2)) = Some s2 ->
  s1 = s2 /\ s1 = simulator (price_slider ui1) (cost_per_unit ui1).
Proof.
  intros Hp Hc H1 H2.
  destruct (run_simulation f1 ui1) as [E1 | E1]; rewrite E1 in H1;
    [discriminate|].
  destruct (run_simulation f2 ui2) as [E2 | E2]; rewrite E2 in H2;
    [discriminate|].
  injection H1 as <-. injection H2 as <-.
  rewrite Hp, Hc. split; reflexivity.
Qed.

Lemma simulation_deterministic_witness :
  simulator 30 10 = mkSimulation 6000 180000 120000
  /\ shown_simulation
       (snd (run sample_book (mkInputs None (Some 30%Z) (Some 10%Z))))
     = Some (mkSimulation 6000 180000 120000)
  /\ shown_simulation
       (snd (run refund_book
                 (mkInputs (Some ["Pune"; "Delhi"]%string)
                           (Some 30%Z) (Some 10%Z))))
     = Some (mkSimulation 6000 180000 120000).
Proof.
  assert (H1 : shown_simulation
       (snd (run sample_book (mkInputs None (Some 30%Z) (Some 10%Z))))
     = Some (mkSimulation 6000 180000 120000)) by (vm_compute; reflexivity).
  assert (H2 : shown_simulation
       (snd (run refund_book
                 (mkInputs (Some ["Pune"; "Delhi"]%string)
                           (Some 30%Z) (Some 10%Z))))
     = Some (mkSimulation 6000 180000 120000)) by (vm_compute; reflexivity).
  destruct (simulation_deterministic
              sample_book refund_book
              (mkInputs None (Some 30%Z) (Some 10%Z))
              (mkInputs (Some ["Pune"; "Delhi"]%string)
                        (Some 30%Z) (Some 10%Z))
              _ _ eq_refl eq_refl H1 H2) as [_ Hs].
  split; [symmetry; exact Hs|]. split; assumption.
Defined.

(** Once the sales sheet is loaded, the four KPIs of the filtered rows are
    on the page, whatever happens further down the script. *)
Lemma run_shows_summary (sheets : list (string * sheet))
    (hist : list SalesRecord) (c s k : sheet) (ui : inputs) :
  find_sheet "Historical_Sales" sheets = Some (SalesSheet hist) ->
  find_sheet "Lost_file" sheets = Some c ->
  find_sheet "Scenario_Simulation" sheets = Some s ->
  find_sheet "Cost_Structure" sheets = Some k ->
  let page := snd (run (Workbook sheets) ui) in
  let shown := summary (filter_by_city (city_filter ui hist) hist) in
  metric_value "Total Revenue" page = Some (FloatVal (total_revenue shown))
  /\ metric_value "Total Profit" page = Some (FloatVal (total_profit shown))
  /\ metric_value "Avg Price" page = Some (FloatVal (avg_price shown))
  /\ metric_value "Total Units Sold" page
     = Some (FloatVal (total_units shown)).
Proof.
  intros Hh Hc Hs Hk.
  rewrite run_unfold, load_data_workbook. cbv zeta.
  rewrite Hh, Hc, Hs, Hk.
  unfold dashboard, pie, bind, render, lift, ret, raise.
  cbn -[elasticity summary trend filter_by_city city_filter simulator
        series_mean price_slider cost_per_unit pie_accepts].
  destruct (elasticity _) as [e | | e];
    [draw_charts s k c | |]; repeat split; reflexivity.
Qed.

End Script.

(** * Aggregation over the filtered rows *)

Section Aggregation.

Lemma filter_by_no_city (historical : list SalesRecord) :
  filter_by_city [] historical = [].
Proof.
  induction historical as [|r rest IH]; [reflexivity | exact IH].
Qed.

Lemma summary_nil :
  summary [] = mkKpis (Num 0) (Num 0) NaN (Num 0).
Proof. reflexivity. Qed.

(** The claim C4 as written fails: with no city selected the mean price
    handed to the "Avg Price" metric is the float NaN. *)
Lemma empty_selection_mean_is_nan :
  filter_by_city [] sample_sales = []
  /\ is_nan (avg_price (summary (filter_by_city [] sample_sales))) = true
  /\ metric_value "Avg Price"
       (snd (run sample_book (mkInputs (Some []) None None)))
     = Some (FloatVal NaN).
Proof. repeat split; reflexivity. Qed.

(** C4 (amended): when the filtered rows are empty the three sums are 0 and
    the mean price is NaN; the four KPIs are rendered with these values, so
    the aggregation does not raise. *)
Theorem empty_selection_summary (sheets : list (string * sheet))
    (hist : list SalesRecord) (c s k : sheet) (ui : inputs) :
  find_sheet "Historical_Sales" sheets = Some (SalesSheet hist) ->
  find_sheet "Lost_file" sheets = Some c ->
  find_sheet "Scenario_Simulation" sheets = Some s ->
  find_sheet "Cost_Structure" sheets = Some k ->
  filter_by_city (city_filter ui hist) hist = [] ->
  let page := snd (run (Workbook sheets) ui) in
  summary (filter_by_city (city_filter ui hist) hist)
  = mkKpis (Num 0) (Num 0) NaN (Num 0)
  /\ metric_value "Total Revenue" page = Some (FloatVal (Num 0))
  /\ metric_value "Total Profit" page = Some (FloatVal (Num 0))
  /\ metric_value "Avg Price" page = Some (FloatVal NaN)
  /\ metric_value "Total Units Sold" page = Some (FloatVal (Num 0)).
Proof.
  intros Hh Hc Hs Hk Hempty page.
  pose proof (run_shows_summary sheets hist c s k ui Hh Hc Hs Hk) as Hshown.
  cbv zeta in Hshown. fold page in Hshown.
  rewrite Hempty in *. rewrite summary_nil in Hshown.
  split; [apply summary_nil | exact Hshown].
Qed.

Lemma empty_selection_summary_witness :
  filter_by_city (city_filter (mkInputs (Some []) None None) sample_sales)
                 sample_sales = []
  /\ metric_value "Total Revenue"
       (snd (run sample_book (mkInputs (Some []) None None)))
     = Some (FloatVal (Num 0)).
Proof.
  split; [reflexivity|].
  refine (proj1 (proj2
    (empty_selection_summary
       [("Historical_Sales"%string, SalesSheet sample_sales);
        ("Lost_file"%string, CompetitorSheet [mkCompetitor "Jan" 24]);
        ("Scenario_Simulation"%string,
         ScenarioSheet [mkScenario 25 187500 97500]);
        ("Cost_Structure"%string, CostSheet [mkCost "Fruit" 100])]
       sample_sales _ _ _ (mkInputs (Some []) None None)
       eq_refl eq_refl eq_refl eq_refl eq_refl))).
Defined.

Lemma isin_In (values : list string) (c : string) :
  isin values c = true <-> In c values.
Proof.
  unfold isin. rewrite existsb_exists. split.
  - intros (x & Hin & Heq). apply String.eqb_eq in Heq. now subst.
  - intros Hin. exists c. split; [exact Hin | apply String.eqb_refl].
Qed.

Lemma isin_incl (s1 s2 : list string) (c : string) :
  incl s1 s2 -> isin s1 c = true -> isin s2 c = true.
Proof.
  intros Hincl. rewrite !isin_In. apply Hincl.
Qed.

Lemma filter_by_city_In (selection : list string)
    (historical : list SalesRecord) (r : SalesRecord) :
  In r (filter_by_city selection historical)
  <-> In r historical /\ In (City r) selection.
Proof.
  unfold filter_by_city. rewrite filter_In, isin_In. reflexivity.
Qed.

(** The sum over the filtered frame is the sum, over the whole sheet, of
    the Revenue of the selected rows. *)
Lemma filtered_revenue_sum (selection : list string)
    (historical : list SalesRecord) :
  sumQ (map Revenue (filter_by_city selection historical))
  == selected_revenue selection historical.
Proof.
  unfold selected_revenue, filter_by_city.
  induction historical as [|r rest IH]; [reflexivity|].
  cbn [filter map sumQ].
  destruct (isin selection (City r)); cbn [map sumQ]; rewrite IH; ring.
Qed.

Lemma selected_revenue_monotone (s1 s2 : list string)
    (historical : list SalesRecord) :
  incl s1 s2 ->
  Forall (fun r => 0 <= Revenue r) historical ->
  selected_revenue s1 historical <= selected_revenue s2 historical.
Proof.
  intros Hincl Hpos. unfold selected_revenue.
  induction Hpos as [|r rest Hr _ IH]; cbn [map sumQ]; [lra|].
  destruct (isin s1 (City r)) eqn:E1.
  - rewrite (isin_incl s1 s2 _ Hincl E1). lra.
  - destruct (isin s2 (City r)); lra.
Qed.




Lemma lookup_add_to_group (m k : string) (v : Q * Q) (g : groups) :
  lookup m (add_to_group k v g)
  = if String.eqb m k
    then Some (match lookup k g with
               | Some w => (fst w + fst v, snd w + snd v)
               | None => v
               end)
    else lookup m g.
Proof.
  induction g as [|[k' w] rest IH]; cbn [add_to_group lookup].
  - reflexivity.
  - destruct (String.eqb_spec k k') as [-> | Hkk']; cbn [lookup].
    + destruct (String.eqb_spec m k') as [-> | Hmk']; reflexivity.
    + rewrite IH.
      destruct (String.eqb_spec m k') as [-> | Hmk'].
      * destruct (String.eqb_spec k' k) as [-> | _];
          [contradiction | reflexivity].
      * reflexivity.
Qed.

Lemma lookup_fold_groups (m : string) (rows : list SalesRecord) (g : groups) :
  lookup m
    (fold_left (fun g r => add_to_group (Month r) (Revenue r, Profit r) g)
               rows g)
  = fold_left (scan_month m) rows (lookup m g).
Proof.
  revert g. induction rows as [|r rest IH]; intros g; cbn [fold_left].
  - reflexivity.
  - rewrite IH, lookup_add_to_group. f_equal.
    unfold scan_month.
    destruct (String.eqb_spec m (Month r)) as [-> | _]; reflexivity.
Qed.

Lemma month_total_cons (column : SalesRecord -> Q) (m : string)
    (r : SalesRecord) (rest : list SalesRecord) :
  month_total column m (r :: rest)
  = if String.eqb m (Month r)
    then column r + month_total column m rest
    else month_total column m rest.
Proof.
  unfold month_total. cbn [filter].
  destruct (String.eqb m (Month r)); reflexivity.
Qed.

Lemma scan_month_started (m : string) (rows : list SalesRecord) (a b : Q) :
  exists a' b',
    fold_left (scan_month m) rows (Some (a, b)) = Some (a', b')
    /\ a' == a + month_total Revenue m rows
    /\ b' == b + month_total Profit m rows.
Proof.
  revert a b. induction rows as [|r rest IH]; intros a b; cbn [fold_left].
  - exists a, b. split; [reflexivity|]. unfold month_total; cbn. split; ring.
  - rewrite !month_total_cons. unfold scan_month at 2.
    destruct (String.eqb m (Month r)); cbn [fst snd].
    + destruct (IH (a + Revenue r) (b + Profit r)) as (a' & b' & E & Ha & Hb).
      exists a', b'. split; [exact E|]. rewrite Ha, Hb. split; ring.
    + apply IH.
Qed.

Lemma scan_month_fresh (m : string) (rows : list SalesRecord) :
  if month_present m rows
  then exists a b,
         fold_left (scan_month m) rows None = Some (a, b)
         /\ a == month_total Revenue m rows
         /\ b == month_total Profit m rows
  else fold_left (scan_month m) rows None = None.
Proof.
  induction rows as [|r rest IH]; cbn [fold_left month_present existsb].
  - reflexivity.
  - rewrite !month_total_cons.
    destruct (String.eqb m (Month r)) eqn:E; cbn [orb].
    + replace (scan_month m None r) with (Some (Revenue r, Profit r))
        by (unfold scan_month; now rewrite E).
      apply scan_month_started.
    + replace (scan_month m None r) with (@None (Q * Q))
        by (unfold scan_month; now rewrite E).
      exact IH.
Qed.

Lemma reindex_row_ok (rows : list SalesRecord) (l : string) :
  trend_row_ok rows
    (match lookup l (groupby_month_sum rows) with
     | Some w => (l, (Num (fst w), Num (snd w)))
     | None => (l, (NaN, NaN))
     end).
Proof.
  unfold groupby_month_sum. rewrite lookup_fold_groups. cbn [lookup].
  pose proof (scan_month_fresh l rows) as H.
  unfold trend_row_ok.
  destruct (fold_left (scan_month l) rows None) as [w|] eqn:E; cbn [fst snd];
    destruct (month_present l rows).
  - destruct H as (a & b & Hw & Ha & Hb). injection Hw as ->.
    cbn. split; assumption.
  - discriminate H.
  - destruct H as (a & b & Hw & _). discriminate Hw.
  - reflexivity.
Qed.

(** C7: the trend frame has one row per calendar month, Jan to Dec in this
    order; the row of a month holds the sums of Revenue and of Profit over
    the filtered rows of that month, and NaN in both columns when the
    filtered rows have none of that month. *)
Theorem trend_by_month (filtered_data : list SalesRecord) :
  map fst (trend filtered_data)
  = ["Jan"; "Feb"; "Mar"; "Apr"; "May"; "Jun";
     "Jul"; "Aug"; "Sep"; "Oct"; "Nov"; "Dec"]%string
  /\ Forall (trend_row_ok filtered_data) (trend filtered_data).
Proof.
  unfold trend, reindex. split.
  - rewrite map_map.
    transitivity (map (fun l : string => l) months).
    + apply map_ext. intros l.
      destruct (lookup l (groupby_month_sum filtered_data)); reflexivity.
    + now rewrite map_id.
  - apply Forall_map, Forall_forall. intros l _. apply reindex_row_ok.
Qed.

End Aggregation.

(** * Least squares and the elasticity estimator *)

Section Regression.

Lemma count_cons (x : Q) (xs : list Q) : count (x :: xs) == 1 + count xs.
Proof.
  unfold count. cbn [List.length].
  rewrite Nat2Z.inj_succ, <- Z.add_1_l, inject_Z_plus. reflexivity.
Qed.

Lemma count_nonneg (xs : list Q) : 0 <= count xs.
Proof.
  unfold count. change 0 with (inject_Z 0).
  rewrite <- Zle_Qle. lia.
Qed.

Lemma count_pos (x : Q) (xs : list Q) : 0 < count (x :: xs).
Proof.
  rewrite count_cons. pose proof (count_nonneg xs). lra.
Qed.

Lemma sq_nonneg (x : Q) : 0 <= sq x.
Proof. unfold sq. nra. Qed.

Lemma sq_zero (x : Q) : sq x == 0 -> x == 0.
Proof. unfold sq. nra. Qed.

Lemma sumQ_sq_nonneg (f : Q -> Q) (xs : list Q) :
  0 <= sumQ (map (fun x => sq (f x)) xs).
Proof.
  induction xs as [|x rest IH]; cbn [map sumQ]; [lra|].
  pose proof (sq_nonneg (f x)). lra.
Qed.

(** A sum of squares is zero only when every term is. *)
Lemma sumQ_sq_zero (f : Q -> Q) (xs : list Q) :
  sumQ (map (fun x => sq (f x)) xs) == 0 ->
  Forall (fun x => f x == 0) xs.
Proof.
  induction xs as [|x rest IH]; cbn [map sumQ]; intros H; constructor.
  - apply sq_zero.
    pose proof (sq_nonneg (f x)). pose proof (sumQ_sq_nonneg f rest). lra.
  - apply IH.
    pose proof (sq_nonneg (f x)). pose proof (sumQ_sq_nonneg f rest). lra.
Qed.

Lemma line_sq_expand (a b : Q) (xs : list Q) :
  line_sq a b xs
  == a * a * Sxx xs + 2 * a * b * sumQ xs + count xs * (b * b).
Proof.
  unfold line_sq, Sxx.
  induction xs as [|x rest IH].
  - change (count []) with 0. cbn [map sumQ]. ring.
  - cbn [map sumQ]. rewrite count_cons, IH. unfold sq. ring.
Qed.

Lemma line_sq_nonneg (a b : Q) (xs : list Q) : 0 <= line_sq a b xs.
Proof. apply (sumQ_sq_nonneg (fun x => a * x + b)). Qed.

(** The sum of squared residuals as a quadratic in the line's coefficients. *)
Lemma ssr_expand (a b : Q) (xs ys : list Q) :
  List.length xs = List.length ys ->
  ssr a b xs ys
  == Sxx ys - 2 * a * Sxy xs ys - 2 * b * sumQ ys
     + (a * a * Sxx xs + 2 * a * b * sumQ xs + count xs * (b * b)).
Proof.
  unfold ssr, Sxx, Sxy. revert ys.
  induction xs as [|x rest IH]; intros [|y ys] Hlen; try discriminate Hlen.
  - change (count []) with 0. cbn [combine map sumQ]. ring.
  - injection Hlen as Hlen.
    cbn [combine map sumQ fst snd]. rewrite count_cons, (IH ys Hlen).
    unfold sq. ring.
Qed.

(** n * det is the sum of the squares of n*x - Sx. *)
Lemma det_as_squares (xs : list Q) :
  count xs * det xs == line_sq (count xs) (- sumQ xs) xs.
Proof. rewrite line_sq_expand. unfold det. ring. Qed.

Lemma det_nonneg (x : Q) (xs : list Q) : 0 <= det (x :: xs).
Proof.
  pose proof (count_pos x xs) as Hn.
  pose proof (line_sq_nonneg (count (x :: xs)) (- sumQ (x :: xs)) (x :: xs)) as H.
  rewrite <- det_as_squares in H.
  nra.
Qed.

Lemma det_pos_or_equal (x : Q) (xs : list Q) :
  det (x :: xs) == 0 ->
  forall a b, In a (x :: xs) -> In b (x :: xs) -> a == b.
Proof.
  intros Hdet a b Ha Hb.
  pose proof (count_pos x xs) as Hn.
  pose proof (det_as_squares (x :: xs)) as Hsq.
  rewrite Hdet, Qmult_0_r in Hsq. symmetry in Hsq.
  apply (sumQ_sq_zero (fun v => count (x :: xs) * v + - sumQ (x :: xs)))
    in Hsq.
  rewrite Forall_forall in Hsq.
  pose proof (Hsq a Ha) as Ea. pose proof (Hsq b Hb) as Eb.
  cbv beta in Ea, Eb. nra.
Qed.

Lemma constant_sums (c : Q) (xs : list Q) :
  Forall (Qeq c) xs ->
  sumQ xs == count xs * c /\ Sxx xs == count xs * (c * c).
Proof.
  unfold Sxx.
  induction 1 as [|x rest Hx _ [IH1 IH2]].
  - change (count []) with 0. cbn [map sumQ]. split; ring.
  - cbn [map sumQ]. unfold sq at 1.
    split; rewrite count_cons, ?IH1, ?IH2, <- Hx; ring.
Qed.

Lemma constant_det (c : Q) (xs : list Q) :
  Forall (Qeq c) xs -> det xs == 0.
Proof.
  intros H. destruct (constant_sums c xs H) as [E1 E2].
  unfold det. rewrite E1, E2. ring.
Qed.

Lemma degenerate_constant (x : Q) (xs : list Q) :
  degenerate (x :: xs) -> Forall (Qeq x) (x :: xs).
Proof.
  intros [Hlen | Hsame].
  - destruct xs as [|y rest]; [|cbn in Hlen; lia].
    constructor; [reflexivity | constructor].
  - apply Forall_forall. intros y Hy. apply Hsame; [now left | exact Hy].
Qed.

Lemma Qzero_true (q : Q) : Qzero q = true <-> q == 0.
Proof. unfold Qzero. apply Qeq_bool_iff. Qed.

Lemma Qzero_false (q : Q) : Qzero q = false <-> ~ q == 0.
Proof.
  rewrite <- Qzero_true. destruct (Qzero q); split; congruence.
Qed.

(** With two different prices the system has full rank. *)
Lemma spread_full_rank (xs : list Q) (a b : Q) :
  In a xs -> In b xs -> ~ a == b ->
  ~ Sxx xs == 0 /\ 0 < det xs.
Proof.
  intros Ha Hb Hab.
  destruct xs as [|x rest]; [destruct Ha|].
  split.
  - intros H0. unfold Sxx in H0.
    apply (sumQ_sq_zero (fun v => v)) in H0.
    rewrite Forall_forall in H0.
    apply Hab. rewrite (H0 a Ha), (H0 b Hb). reflexivity.
  - pose proof (det_nonneg x rest) as Hge.
    destruct (Qeq_dec (det (x :: rest)) 0) as [E | NE]; [|lra].
    exfalso. apply Hab. now apply (det_pos_or_equal x rest E).
Qed.

Lemma polyfit1_full_rank (xs ys : list Q) (a b : Q) :
  List.length xs = List.length ys ->
  In a xs -> In b xs -> ~ a == b ->
  polyfit1 xs ys = Done (ols xs ys).
Proof.
  intros Hlen Ha Hb Hab.
  destruct (spread_full_rank xs a b Ha Hb Hab) as [Hxx Hdet].
  unfold polyfit1.
  destruct xs as [|x rest]; [destruct Ha|].
  rewrite Hlen, Nat.eqb_refl. cbn [negb].
  apply Qzero_false in Hxx. rewrite Hxx.
  assert (Hd : Qzero (det (x :: rest)) = false)
    by (apply Qzero_false; lra).
  rewrite Hd. reflexivity.
Qed.

(** Any line misses the least-squares line by the squares of the
    difference of the two lines at the observed prices. *)
Lemma ols_gap (a b : Q) (xs ys : list Q) :
  List.length xs = List.length ys ->
  ~ count xs == 0 -> ~ det xs == 0 ->
  ssr a b xs ys
  == ssr (fst (ols xs ys)) (snd (ols xs ys)) xs ys
     + line_sq (a - fst (ols xs ys)) (b - snd (ols xs ys)) xs.
Proof.
  intros Hlen Hn Hd.
  rewrite !(ssr_expand _ _ xs ys Hlen), line_sq_expand.
  unfold ols. cbn [fst snd].
  set (n := count xs) in *. set (d := det xs) in *.
  assert (Ed : d == n * Sxx xs - sumQ xs * sumQ xs) by reflexivity.
  clearbody n d.
  set (sxx := Sxx xs) in *. set (sx := sumQ xs) in *.
  set (syy := Sxx ys). set (sxy := Sxy xs ys). set (sy := sumQ ys).
  clearbody sxx sx syy sxy sy.
  assert (Esxx : sxx == (d + sx * sx) / n) by (rewrite Ed; field; exact Hn).
  rewrite Esxx. field. split; assumption.
Qed.

Lemma ols_minimises (a b : Q) (xs ys : list Q) :
  List.length xs = List.length ys ->
  ~ count xs == 0 -> ~ det xs == 0 ->
  ssr (fst (ols xs ys)) (snd (ols xs ys)) xs ys <= ssr a b xs ys.
Proof.
  intros Hlen Hn Hd.
  rewrite (ols_gap a b xs ys Hlen Hn Hd).
  pose proof (line_sq_nonneg (a - fst (ols xs ys)) (b - snd (ols xs ys)) xs).
  lra.
Qed.

(** With full rank, only the least-squares line reaches the minimum. *)
Lemma ols_unique (a b : Q) (xs ys : list Q) :
  List.length xs = List.length ys ->
  0 < count xs -> 0 < det xs ->
  ssr a b xs ys <= ssr (fst (ols xs ys)) (snd (ols xs ys)) xs ys ->
  a == fst (ols xs ys) /\ b == snd (ols xs ys).
Proof.
  intros Hlen Hn Hd Hle.
  rewrite (ols_gap a b xs ys Hlen) in Hle by lra.
  pose proof (line_sq_nonneg (a - fst (ols xs ys)) (b - snd (ols xs ys)) xs)
    as Hge.
  rewrite line_sq_expand in Hle, Hge.
  set (da := a - fst (ols xs ys)) in *.
  set (db := b - snd (ols xs ys)) in *.
  assert (Hq : da * da * Sxx xs + 2 * da * db * sumQ xs
               + count xs * (db * db) == 0) by lra.
  assert (Hsplit : count xs * (da * da * Sxx xs + 2 * da * db * sumQ xs
                               + count xs * (db * db))
                   == sq (count xs * db + da * sumQ xs)
                      + sq da * det xs)
    by (unfold sq, det; ring).
  rewrite Hq, Qmult_0_r in Hsplit.
  pose proof (sq_nonneg (count xs * db + da * sumQ xs)) as H1.
  pose proof (sq_nonneg da) as H2.
  assert (Hda0 : sq da == 0) by nra.
  apply sq_zero in Hda0.
  assert (H10 : sq (count xs * db + da * sumQ xs) == 0) by nra.
  apply sq_zero in H10.
  assert (Hdb0 : db == 0) by nra.
  subst da db. split; lra.
Qed.

Lemma series_mean_cons (x : Q) (xs : list Q) :
  series_mean (x :: xs) = Num (mean (x :: xs)).
Proof.
  unfold series_mean, fdiv, mean.
  assert (H : Qzero (count (x :: xs)) = false).
  { apply Qzero_false. pose proof (count_pos x xs). lra. }
  rewrite H. reflexivity.
Qed.

Lemma mean_ratio (x y : Q) (xs ys : list Q) :
  ~ mean (y :: ys) == 0 ->
  fdiv (series_mean (x :: xs)) (series_mean (y :: ys))
  = Num (mean (x :: xs) / mean (y :: ys)).
Proof.
  intros Hd. rewrite !series_mean_cons. unfold fdiv.
  apply Qzero_false in Hd. rewrite Hd. reflexivity.
Qed.

(** The estimator on the example of the specification. *)
Lemma elasticity_example :
  exists e, elasticity_of [20; 25; 30] [9000; 7500; 6000] = Done (Num e)
            /\ e == -1
            /\ fst (ols [20; 25; 30] [9000; 7500; 6000]) == -300.
Proof.
  eexists. split; [vm_compute; reflexivity|]. split; reflexivity.
Qed.

(** The claim C1 as written fails at its own example: the prices 20, 25, 30
    and demands 9000, 7500, 6000 satisfy the preconditions, and the
    estimator does not return -2 there. *)
Lemma elasticity_example_not_minus_two :
  List.length [20; 25; 30] = List.length [9000; 7500; 6000]
  /\ (2 <= List.length [20; 25; 30])%nat
  /\ ~ 20 == 25
  /\ ~ mean [9000; 7500; 6000] == 0
  /\ ~ exists e, elasticity_of [20; 25; 30] [9000; 7500; 6000] = Done (Num e)
                 /\ e == -2.
Proof.
  split; [reflexivity|]. split; [cbn; lia|].
  split; [intros H; discriminate H|].
  split; [intros H; discriminate H|].
  intros (e & He & E2).
  vm_compute in He. injection He as <-. discriminate E2.
Qed.

(** C1 (amended): on parallel columns of at least two observations with two
    different prices and a nonzero mean demand, the estimator returns
    slope * (mean(price) / mean(demand)), where (slope, intercept) is the
    least-squares line of demand on price: the only line with the smallest
    sum of squared residuals.  For prices 20, 25, 30 and demands 9000, 7500,
    6000 the slope is -300 and the estimator returns -1. *)
Theorem elasticity_is_scaled_slope (price demand : list Q) :
  List.length price = List.length demand ->
  (2 <= List.length price)%nat ->
  (exists a b, In a price /\ In b price /\ ~ a == b) ->
  ~ mean demand == 0 ->
  let slope := fst (ols price demand) in
  let intercept := snd (ols price demand) in
  polyfit1 price demand = Done (slope, intercept)
  /\ (forall a b, ssr slope intercept price demand <= ssr a b price demand)
  /\ (forall a b, ssr a b price demand <= ssr slope intercept price demand ->
                  a == slope /\ b == intercept)
  /\ elasticity_of price demand
     = Done (Num (slope * (mean price / mean demand)))
  /\ exists e, elasticity_of [20; 25; 30] [9000; 7500; 6000] = Done (Num e)
               /\ e == -1.
Proof.
  intros Hlen Hn (a0 & b0 & Ha & Hb & Hab) Hmean slope intercept.
  destruct (spread_full_rank price a0 b0 Ha Hb Hab) as [_ Hdet].
  pose proof (polyfit1_full_rank price demand a0 b0 Hlen Ha Hb Hab) as Hfit.
  destruct price as [|x xs]; [destruct Ha|].
  destruct demand as [|y ys]; [discriminate Hlen|].
  pose proof (count_pos x xs) as Hcount.
  split; [|split; [|split; [|split]]].
  - rewrite Hfit. subst slope intercept.
    now destruct (ols (x :: xs) (y :: ys)).
  - intros a b. apply ols_minimises; [exact Hlen | lra | lra].
  - intros a b. now apply ols_unique.
  - unfold elasticity_of. rewrite Hfit, mean_ratio by exact Hmean.
    reflexivity.
  - destruct elasticity_example as (e & He & E1 & _). now exists e.
Qed.

Lemma elasticity_is_scaled_slope_witness :
  exists e,
    elasticity_of [20; 22; 30] [9000; 8000; 6000] = Done (Num e)
    /\ e = fst (ols [20; 22; 30] [9000; 8000; 6000])
           * (mean [20; 22; 30] / mean [9000; 8000; 6000]).
Proof.
  eexists.
  assert (Hlen : List.length [20; 22; 30] = List.length [9000; 8000; 6000])
    by reflexivity.
  assert (Hn : (2 <= List.length [20; 22; 30])%nat) by (cbn; lia).
  assert (Hspread : exists a b, In a [20; 22; 30] /\ In b [20; 22; 30]
                                /\ ~ a == b).
  { exists 20, 22. split; [cbn; auto|]. split; [cbn; auto|].
    intros H; discriminate H. }
  assert (Hmean : ~ mean [9000; 8000; 6000] == 0)
    by (intros H; discriminate H).
  split.
  - exact (proj1 (proj2 (proj2 (proj2
      (elasticity_is_scaled_slope _ _ Hlen Hn Hspread Hmean))))).
  - reflexivity.
Defined.

Lemma polyfit1_rank_one (c : Q) (x y : Q) (xs ys : list Q) :
  List.length (x :: xs) = List.length (y :: ys) ->
  Forall (Qeq c) (x :: xs) -> ~ c == 0 ->
  polyfit1 (x :: xs) (y :: ys) = Done (min_norm (x :: xs) (y :: ys)).
Proof.
  intros Hlen Hc Hc0.
  destruct (constant_sums c (x :: xs) Hc) as [_ Hxx].
  pose proof (constant_det c (x :: xs) Hc) as Hdet.
  pose proof (count_pos x xs) as Hn.
  unfold polyfit1. rewrite Hlen, Nat.eqb_refl. cbn [negb].
  assert (H1 : Qzero (Sxx (x :: xs)) = false).
  { apply Qzero_false. rewrite Hxx. intros H. apply Hc0, sq_zero.
    pose proof (sq_nonneg c). unfold sq in *. nra. }
  assert (H2 : Qzero (det (x :: xs)) = true) by now apply Qzero_true.
  rewrite H1, H2. reflexivity.
Qed.

(** The claim C3 as written fails: with no observation the estimator
    raises, and with two observations at one price it returns an ordinary
    finite number. *)
Lemma degenerate_input_not_reported :
  degenerate [] /\ crashed (elasticity [])
  /\ degenerate [20; 20]
  /\ exists e, elasticity_of [20; 20] [9000; 7500] = Done (Num e).
Proof.
  split; [left; cbn; lia|].
  split; [eexists; reflexivity|].
  split; [|eexists; reflexivity].
  right. intros a b [<- | [<- | []]] [<- | [<- | []]]; reflexivity.
Qed.

(** C3 (amended): the estimator has no report of insufficient data.  On a
    degenerate price column (fewer than two observations, or all prices
    equal) it raises numpy's TypeError when there is no observation at all,
    and otherwise, the common price and the total demand being nonzero, it
    returns an ordinary finite number, with no error indication. *)
Theorem elasticity_on_degenerate_input (price demand : list Q) :
  degenerate price ->
  List.length price = List.length demand ->
  match price with
  | [] =>
      elasticity_of price demand
      = Raised (TypeError "expected non-empty vector for x")
  | c :: _ =>
      ~ c == 0 -> ~ sumQ demand == 0 ->
      exists e, elasticity_of price demand = Done (Num e)
  end.
Proof.
  intros Hdeg Hlen.
  destruct price as [|x xs]; [reflexivity|].
  intros Hx Hsum.
  destruct demand as [|y ys]; [discriminate Hlen|].
  pose proof (degenerate_constant x xs Hdeg) as Hconst.
  pose proof (count_pos y ys) as Hn.
  assert (Hmean : ~ mean (y :: ys) == 0).
  { unfold mean. intros H. apply Hsum.
    assert (E : sumQ (y :: ys)
                == sumQ (y :: ys) / count (y :: ys) * count (y :: ys))
      by (field; lra).
    rewrite E, H. ring. }
  unfold elasticity_of.
  rewrite (polyfit1_rank_one x x y xs ys Hlen Hconst Hx).
  rewrite mean_ratio by exact Hmean.
  eexists. reflexivity.
Qed.

Lemma elasticity_on_degenerate_input_witness :
  degenerate [25]
  /\ exists e, elasticity_of [25] [7500] = Done (Num e).
Proof.
  assert (Hdeg : degenerate [25]) by (left; cbn; lia).
  split; [exact Hdeg|].
  apply (elasticity_on_degenerate_input [25] [7500] Hdeg eq_refl).
  - intros H; discriminate H.
  - intros H; discriminate H.
Defined.

End Regression.


(** * The filter stage *)

Section Filter.

Lemma unique_In (l : list string) (c : string) :
  In c (unique l) <-> In c l.
Proof.
  induction l as [|x rest IH]; cbn [unique In]; [reflexivity|].
  rewrite filter_In, IH, negb_true_iff.
  destruct (String.eqb_spec x c) as [-> | Hne].
  - tauto.
  - split; [tauto|]. intros [H | H]; [contradiction | tauto].
Qed.

Lemma unique_NoDup (l : list string) : NoDup (unique l).
Proof.
  induction l as [|x rest IH]; cbn [unique]; constructor.
  - rewrite filter_In, negb_true_iff, String.eqb_refl.
    intros [_ H]. discriminate H.
  - now apply NoDup_filter.
Qed.

(** X1: [Series.unique()] lists every city of the column once: the multiselect
    offers each city of the sheet, and none twice. *)
Theorem unique_lists_each_city_once (cities : list string) :
  NoDup (unique cities)
  /\ (forall c, In c (unique cities) <-> In c cities).
Proof.
  split; [apply unique_NoDup | intros c; apply unique_In].
Qed.

Lemma filter_all (A : Type) (f : A -> bool) (l : list A) :
  (forall x, In x l -> f x = true) -> filter f l = l.
Proof.
  induction l as [|x rest IH]; intros H; cbn [filter]; [reflexivity|].
  rewrite (H x (or_introl eq_refl)), IH; [reflexivity|].
  intros y Hy. apply H. now right.
Qed.

(** X2: until the user touches the multiselect every city is selected, and the
    filtered frame is the whole sales sheet, rows and order unchanged. *)
Theorem default_selection_keeps_every_row (ui : inputs)
    (historical : list SalesRecord) :
  city_choice ui = None ->
  filter_by_city (city_filter ui historical) historical = historical.
Proof.
  intros Hnone. unfold city_filter, multiselect. rewrite Hnone.
  apply filter_all. intros r Hr.
  apply isin_In, unique_In, in_map, Hr.
Qed.

Lemma default_selection_keeps_every_row_witness :
  filter_by_city (city_filter (mkInputs None (Some 30%Z) None) sample_sales)
                 sample_sales
  = sample_sales.
Proof.
  exact (default_selection_keeps_every_row
           (mkInputs None (Some 30%Z) None) sample_sales eq_refl).
Defined.

(** X3: only membership counts: two selections that agree on the cities of the
    sheet give the same filtered frame, so the order of the selection, a city
    selected twice and a city absent from the sheet change nothing. *)
Theorem selection_matters_by_membership (s1 s2 : list string)
    (historical : list SalesRecord) :
  (forall r, In r historical -> (In (City r) s1 <-> In (City r) s2)) ->
  filter_by_city s1 historical = filter_by_city s2 historical.
Proof.
  intros Hsame. unfold filter_by_city. apply filter_ext_in.
  intros r Hr. specialize (Hsame r Hr). rewrite <- !isin_In in Hsame.
  destruct (isin s1 (City r)), (isin s2 (City r)); try reflexivity.
  - symmetry. now apply Hsame.
  - now apply Hsame.
Qed.

Lemma selection_matters_by_membership_witness :
  filter_by_city ["Delhi"; "Pune"; "Goa"; "Delhi"]%string sample_sales
  = filter_by_city ["Pune"; "Delhi"]%string sample_sales.
Proof.
  apply selection_matters_by_membership.
  intros r [<- | [<- | [<- | []]]]; cbn; split; intros _; auto.
Defined.

Lemma isin_app (s1 s2 : list string) (c : string) :
  isin (s1 ++ s2) c = isin s1 c || isin s2 c.
Proof. unfold isin. apply existsb_app. Qed.



End Filter.


(** * Grouping by month *)

Section Grouping.

Lemma keys_add_to_group (k k' : string) (v : Q * Q) (g : groups) :
  In k' (map fst (add_to_group k v g)) <-> k' = k \/ In k' (map fst g).
Proof.
  induction g as [|[k0 w] rest IH]; cbn [add_to_group map fst In].
  - intuition.
  - destruct (String.eqb_spec k k0) as [-> | Hne]; cbn [map fst In].
    + intuition.
    + rewrite IH. intuition.
Qed.

Lemma NoDup_add_to_group (k : string) (v : Q * Q) (g : groups) :
  NoDup (map fst g) -> NoDup (map fst (add_to_group k v g)).
Proof.
  induction g as [|[k0 w] rest IH]; cbn [add_to_group map fst]; intros Hnd.
  - constructor; [intros [] | constructor].
  - inversion Hnd as [|? ? Hnotin Hrest]; subst.
    destruct (String.eqb_spec k k0) as [-> | Hne]; cbn [map fst].
    + constructor; assumption.
    + constructor; [|now apply IH].
      rewrite keys_add_to_group. intros [-> | Hin]; [now apply Hne | auto].
Qed.

Lemma fold_groups_keys (rows : list SalesRecord) (g : groups) :
  NoDup (map fst g) ->
  let g' := fold_left
              (fun g r => add_to_group (Month r) (Revenue r, Profit r) g)
              rows g in
  NoDup (map fst g')
  /\ forall k, In k (map fst g')
               <-> In k (map fst g) \/ exists r, In r rows /\ Month r = k.
Proof.
  revert g. induction rows as [|r rest IH]; intros g Hnd; cbn [fold_left].
  - split; [exact Hnd|]. intros k. split; [auto|].
    intros [H | (r & [] & _)]. exact H.
  - destruct (IH (add_to_group (Month r) (Revenue r, Profit r) g)
                 (NoDup_add_to_group _ _ g Hnd)) as [Hnd' Hkeys].
    split; [exact Hnd'|].
    intros k. rewrite Hkeys, keys_add_to_group. cbn [In]. split.
    + intros [[-> | Hin] | (r' & Hr' & Hk)]; eauto.
    + intros [Hin | (r' & [<- | Hr'] & Hk)]; eauto.
Qed.

(** X5: the grouped frame has one group per month present in the rows: its keys
    are distinct and are exactly the Month values of the rows. *)
Theorem groupby_one_group_per_month (rows : list SalesRecord) :
  NoDup (map fst (groupby_month_sum rows))
  /\ forall k, In k (map fst (groupby_month_sum rows))
               <-> exists r, In r rows /\ Month r = k.
Proof.
  destruct (fold_groups_keys rows [] (NoDup_nil _)) as [Hnd Hkeys].
  split; [exact Hnd|].
  intros k. unfold groupby_month_sum. rewrite Hkeys. cbn [map In]. tauto.
Qed.

Lemma sumQ_map_ext (A : Type) (f g : A -> Q) (l : list A) :
  (forall x, In x l -> f x == g x) ->
  sumQ (map f l) == sumQ (map g l).
Proof.
  induction l as [|x rest IH]; intros H; cbn [map sumQ]; [reflexivity|].
  rewrite (H x (or_introl eq_refl)), IH; [reflexivity|].
  intros y Hy. apply H. now right.
Qed.

Lemma sumQ_map_plus (A : Type) (f g : A -> Q) (l : list A) :
  sumQ (map (fun x => f x + g x) l) == sumQ (map f l) + sumQ (map g l).
Proof.
  induction l as [|x rest IH]; cbn [map sumQ]; [ring | rewrite IH; ring].
Qed.

Lemma existsb_eqb_In (k : string) (labels : list string) :
  existsb (String.eqb k) labels = true <-> In k labels.
Proof.
  rewrite existsb_exists. split.
  - intros (x & Hin & Heq). apply String.eqb_eq in Heq. now subst.
  - intros Hin. exists k. split; [exact Hin | apply String.eqb_refl].
Qed.

(** Over distinct labels, exactly one label can match a key. *)
Lemma one_label_matches (k : string) (v : Q) (labels : list string) :
  NoDup labels ->
  sumQ (map (fun l => if String.eqb l k then v else 0) labels)
  == if existsb (String.eqb k) labels then v else 0.
Proof.
  induction 1 as [|l rest Hnotin _ IH]; cbn [map sumQ existsb];
    [reflexivity|].
  rewrite IH, (String.eqb_sym k l).
  destruct (String.eqb_spec l k) as [-> | Hne]; cbn [orb]; [|ring].
  destruct (existsb (String.eqb k) rest) eqn:E; [|ring].
  apply existsb_eqb_In in E. contradiction.
Qed.

(** Added over distinct labels, the month totals give the column total of
    the rows filed under one of the labels. *)
Lemma month_totals_add_up (column : SalesRecord -> Q) (labels : list string)
    (rows : list SalesRecord) :
  NoDup labels ->
  sumQ (map (fun l => month_total column l rows) labels)
  == sumQ (map column
             (filter (fun r => existsb (String.eqb (Month r)) labels) rows)).
Proof.
  intros Hnd. induction rows as [|r rest IH].
  - cbn [filter map sumQ].
    induction labels as [|l ls IHl]; cbn [map sumQ]; [reflexivity|].
    inversion Hnd; subst. rewrite IHl by assumption.
    unfold month_total. cbn. ring.
  - rewrite (sumQ_map_ext _
               (fun l => month_total column l (r :: rest))
               (fun l => (if String.eqb l (Month r) then column r else 0)
                         + month_total column l rest)).
    + rewrite sumQ_map_plus, IH, (one_label_matches _ _ _ Hnd).
      cbn [filter].
      destruct (existsb (String.eqb (Month r)) labels); cbn [map sumQ]; ring.
    + intros l _. rewrite month_total_cons.
      destruct (String.eqb l (Month r)); ring.
Qed.

Lemma month_total_absent (column : SalesRecord -> Q) (m : string)
    (rows : list SalesRecord) :
  month_present m rows = false -> month_total column m rows = 0.
Proof.
  unfold month_present, month_total.
  induction rows as [|r rest IH]; cbn [existsb filter]; [reflexivity|].
  destruct (String.eqb m (Month r)); cbn [orb]; [discriminate | exact IH].
Qed.

Lemma NoDup_months : NoDup months.
Proof.
  unfold months.
  repeat (constructor; [cbn; intuition discriminate|]). constructor.
Qed.

Lemma trend_entries (rows : list SalesRecord) (l : string) :
  let row := match lookup l (groupby_month_sum rows) with
             | Some w => (l, (Num (fst w), Num (snd w)))
             | None => (l, (NaN, NaN))
             end in
  finite_or_zero (fst (snd row)) == month_total Revenue l rows
  /\ finite_or_zero (snd (snd row)) == month_total Profit l rows.
Proof.
  cbv zeta. pose proof (reindex_row_ok rows l) as H.
  unfold trend_row_ok in H.
  destruct (lookup l (groupby_month_sum rows)) as [w|]; cbn [fst snd] in *;
    destruct (month_present l rows) eqn:E.
  - exact H.
  - discriminate H.
  - destruct H as [[] _].
  - rewrite !(month_total_absent _ l rows E). split; reflexivity.
Qed.


End Grouping.


(** * The simulator over the slider ranges *)

Section SimulatorRange.

Local Open Scope Z_scope.

(** X8: the expected revenue never exceeds 187500 and reaches it at price 25
    only: the slider's default position is the revenue-maximising price. *)
Theorem revenue_peaks_at_default_price (price cost : Z) :
  expected_revenue (simulator price cost) <= 187500
  /\ (expected_revenue (simulator price cost) = 187500 <-> price = 25).
Proof.
  rewrite expected_revenue_eq.
  assert (E : price * (15000 - price * 300)
              = 187500 - 300 * ((price - 25) * (price - 25))) by ring.
  rewrite E. pose proof (Z.square_nonneg (price - 25)) as Hsq.
  split; [lia|]. split; [|intros ->; reflexivity].
  intros H.
  assert (H0 : (price - 25) * (price - 25) = 0) by lia.
  apply Z.mul_eq_0 in H0. lia.
Qed.

(** X9: every price on the slider is above every cost on the slider, so within
    the slider ranges the expected profit is positive: at least 18000, and
    below the expected revenue. *)
Theorem profit_positive_within_sliders (price cost : Z) :
  20 <= price <= 35 -> 8 <= cost <= 18 ->
  18000 <= expected_profit (simulator price cost)
  /\ expected_profit (simulator price cost)
     < expected_revenue (simulator price cost).
Proof.
  intros Hp Hc. rewrite expected_profit_eq, expected_revenue_eq.
  assert (Hd : 4500 <= 15000 - price * 300 <= 9000) by lia.
  split; [|nia].
  assert (H : (price - 18) * (15000 - price * 300)
              <= (price - cost) * (15000 - price * 300)) by nia.
  assert (H' : 18000 <= (price - 18) * (15000 - price * 300)).
  { assert (E : (price - 18) * (15000 - price * 300) - 18000
                = 300 * ((price - 20) * (48 - price))) by ring.
    nia. }
  lia.
Qed.

Lemma profit_positive_within_sliders_witness :
  18000 <= expected_profit (simulator 20 18).
Proof.
  apply (profit_positive_within_sliders 20 18); lia.
Defined.

End SimulatorRange.


(** * Runs of the whole script *)

Ltac run_to_elasticity :=
  rewrite run_unfold, load_data_workbook; cbv zeta;
  unfold dashboard, pie, bind, render, lift, ret, raise.

Section Runs.

(** X10: the loader succeeds exactly when the file is a readable workbook holding
    the four sheet names it asks for, and then returns, for each name, the
    first sheet filed under it. *)
Theorem load_data_succeeds_iff (f : source_file) (page : list element)
    (h c s k : sheet) :
  fst (load_data f page) = Done (h, c, s, k)
  <-> exists sheets,
        f = Workbook sheets
        /\ find_sheet "Historical_Sales" sheets = Some h
        /\ find_sheet "Lost_file" sheets = Some c
        /\ find_sheet "Scenario_Simulation" sheets = Some s
        /\ find_sheet "Cost_Structure" sheets = Some k.
Proof.
  destruct f as [| | sheets].
  - rewrite load_data_absent. split; [discriminate|].
    intros (? & H & _). discriminate H.
  - rewrite load_data_unreadable. split; [discriminate|].
    intros (? & H & _). discriminate H.
  - rewrite load_data_workbook. cbv zeta. split.
    + intros H. exists sheets.
      destruct (find_sheet "Historical_Sales" sheets);
        destruct (find_sheet "Lost_file" sheets);
        destruct (find_sheet "Scenario_Simulation" sheets);
        destruct (find_sheet "Cost_Structure" sheets);
        cbn [fst] in H; try discriminate H.
      injection H as -> -> -> ->. repeat split; reflexivity.
    + intros (sheets' & E & Hh & Hc & Hs & Hk).
      injection E as <-. rewrite Hh, Hc, Hs, Hk. reflexivity.
Qed.

(** X11: when a sheet is missing the loader raises pandas' ValueError for the
    first missing name in its reading order (Historical_Sales, Lost_file,
    Scenario_Simulation, Cost_Structure), after showing the workbook's sheet
    names in its error box. *)
Theorem load_data_names_first_missing_sheet (sheets : list (string * sheet))
    (page : list element) (name : string) :
  first_missing sheets = Some name ->
  load_data (Workbook sheets) page
  = (Raised (ValueError ("Worksheet named '" ++ name ++ "' not found")),
     page ++ [ErrorBox (SheetsFound (map fst sheets))]).
Proof.
  unfold first_missing, required_sheets. cbn [find].
  rewrite load_data_workbook. cbv zeta.
  destruct (find_sheet "Historical_Sales" sheets);
    destruct (find_sheet "Lost_file" sheets);
    destruct (find_sheet "Scenario_Simulation" sheets);
    destruct (find_sheet "Cost_Structure" sheets);
    intros H; try discriminate H; injection H as <-; reflexivity.
Qed.

Lemma load_data_names_first_missing_sheet_witness :
  fst (load_data book_without_Lost_file [])
  = Raised (ValueError "Worksheet named 'Lost_file' not found").
Proof.
  unfold book_without_Lost_file.
  rewrite (load_data_names_first_missing_sheet
             [("Historical_Sales"%string, SalesSheet sample_sales);
              ("Competitor_Prices"%string,
               CompetitorSheet [mkCompetitor "Jan" 24]);
              ("Scenario_Simulation"%string,
               ScenarioSheet [mkScenario 25 187500 97500]);
              ("Cost_Structure"%string, CostSheet [mkCost "Fruit" 100])]
             [] "Lost_file" eq_refl).
  reflexivity.
Defined.

(** When the elasticity line raises, the run ends there with what was
    rendered above it. *)
Lemma run_stops_at_elasticity (sheets : list (string * sheet))
    (hist : list SalesRecord) (c s k : sheet) (ui : inputs) (e : exn) :
  loads sheets hist c s k ->
  elasticity (filter_by_city (city_filter ui hist) hist) = Raised e ->
  run (Workbook sheets) ui
  = (Raised e,
     page_before_elasticity (map fst sheets)
       (filter_by_city (city_filter ui hist) hist)).
Proof.
  intros (Hh & Hc & Hs & Hk) He.
  run_to_elasticity. rewrite Hh, Hc, Hs, Hk. hold_frames.
  rewrite He. reflexivity.
Qed.

(** X12: with every city deselected the run crashes at the elasticity line with
    numpy's TypeError: the four KPIs, the trend chart and the scatter chart
    are on the page, the elasticity and simulator metrics and the scenario,
    cost and competitor charts are not. *)
Theorem empty_selection_crashes_run (sheets : list (string * sheet))
    (hist : list SalesRecord) (c s k : sheet) (ui : inputs) :
  loads sheets hist c s k ->
  filter_by_city (city_filter ui hist) hist = [] ->
  run (Workbook sheets) ui
  = (Raised (TypeError "expected non-empty vector for x"),
     page_before_elasticity (map fst sheets) [])
  /\ metrics_shown (snd (run (Workbook sheets) ui)) = 4%nat
  /\ charts_shown (snd (run (Workbook sheets) ui)) = 2%nat
  /\ shown_simulation (snd (run (Workbook sheets) ui)) = None
  /\ metric_value "Estimated Price Elasticity" (snd (run (Workbook sheets) ui))
     = None.
Proof.
  intros Hload Hempty.
  assert (He : elasticity (filter_by_city (city_filter ui hist) hist)
               = Raised (TypeError "expected non-empty vector for x"))
    by (rewrite Hempty; reflexivity).
  rewrite (run_stops_at_elasticity sheets hist c s k ui _ Hload He), Hempty.
  repeat split; reflexivity.
Qed.

Lemma empty_selection_crashes_run_witness :
  fst (run sample_book (mkInputs (Some ["Goa"%string]) None None))
  = Raised (TypeError "expected non-empty vector for x").
Proof.
  unfold sample_book.
  refine (f_equal fst (proj1
    (empty_selection_crashes_run
       [("Historical_Sales"%string, SalesSheet sample_sales);
        ("Lost_file"%string, CompetitorSheet [mkCompetitor "Jan" 24]);
        ("Scenario_Simulation"%string,
         ScenarioSheet [mkScenario 25 187500 97500]);
        ("Cost_Structure"%string, CostSheet [mkCost "Fruit" 100])]
       sample_sales _ _ _ (mkInputs (Some ["Goa"%string]) None None)
       (conj eq_refl (conj eq_refl (conj eq_refl eq_refl))) eq_refl))).
Defined.

(** X13: a run reaches the end of the script only if the workbook holds the
    four sheets the loader asks for, each with the columns the script reads
    from it, the elasticity line returns, and the cost percentages can be
    drawn as a pie (at least one, none negative). *)
Theorem run_completes_only_if (f : source_file) (ui : inputs) :
  fst (run f ui) = Done tt ->
  exists sheets hist comp scen costs e,
    f = Workbook sheets
    /\ loads sheets hist (CompetitorSheet comp) (ScenarioSheet scen)
             (CostSheet costs)
    /\ elasticity (filter_by_city (city_filter ui hist) hist) = Done e
    /\ pie_accepts costs = true.
Proof.
  destruct f as [| | sheets]; try discriminate.
  run_to_elasticity.
  destruct (find_sheet "Historical_Sales" sheets) as [h|] eqn:Hh;
    destruct (find_sheet "Lost_file" sheets) as [c|] eqn:Hc;
    destruct (find_sheet "Scenario_Simulation" sheets) as [s|] eqn:Hs;
    destruct (find_sheet "Cost_Structure" sheets) as [k|] eqn:Hk;
    try discriminate.
  destruct h as [hist | | |]; try discriminate.
  hold_frames.
  destruct (elasticity _) as [e | | e] eqn:He; try discriminate.
  destruct s as [| |scen|]; try discriminate.
  destruct k as [| | |costs]; try discriminate.
  hold_frames.
  destruct (pie_accepts costs) eqn:Hpie; try discriminate.
  destruct c as [|comp| |]; try discriminate.
  intros _. exists sheets, hist, comp, scen, costs, e.
  repeat split; assumption.
Qed.

Lemma run_completes_only_if_witness :
  exists sheets hist comp scen costs e,
    sample_book = Workbook sheets
    /\ loads sheets hist (CompetitorSheet comp) (ScenarioSheet scen)
             (CostSheet costs)
    /\ elasticity
         (filter_by_city (city_filter (mkInputs None None None) hist) hist)
       = Done e
    /\ pie_accepts costs = true.
Proof.
  apply (run_completes_only_if sample_book (mkInputs None None None)).
  vm_compute. reflexivity.
Defined.

(** X14: a run that reaches the end of the script has rendered eight metrics (four
    KPIs, the elasticity, three simulator outputs) and five charts, and ends
    with the insight message. *)
Theorem completed_run_page (f : source_file) (ui : inputs) :
  fst (run f ui) = Done tt ->
  metrics_shown (snd (run f ui)) = 8%nat
  /\ charts_shown (snd (run f ui)) = 5%nat
  /\ last (snd (run f ui)) Title = Success
  /\ shown_simulation (snd (run f ui))
     = Some (simulator (price_slider ui) (cost_per_unit ui)).
Proof.
  destruct f as [| | sheets]; try discriminate.
  run_to_elasticity.
  destruct (find_sheet "Historical_Sales" sheets) as [h|];
    destruct (find_sheet "Lost_file" sheets) as [c|];
    destruct (find_sheet "Scenario_Simulation" sheets) as [s|];
    destruct (find_sheet "Cost_Structure" sheets) as [k|];
    try discriminate.
  destruct h as [hist | | |]; try discriminate.
  hold_frames.
  destruct (elasticity _) as [e | | e]; try discriminate.
  destruct s as [| |scen|]; try discriminate.
  destruct k as [| | |costs]; try discriminate.
  hold_frames.
  destruct (pie_accepts costs); try discriminate.
  destruct c as [|comp| |]; try discriminate.
  intros _. repeat split; reflexivity.
Qed.

Lemma completed_run_page_witness :
  metrics_shown (snd (run sample_book (mkInputs None None None))) = 8%nat.
Proof.
  apply (completed_run_page sample_book (mkInputs None None None)).
  vm_compute. reflexivity.
Defined.

(** X15: a sheet filed under Historical_Sales without the sales columns stops the
    run with KeyError at the first column access, below the sidebar header
    and above every metric and chart. *)
Theorem sales_schema_error_halts_before_kpis (sheets : list (string * sheet))
    (h c s k : sheet) (ui : inputs) :
  find_sheet "Historical_Sales" sheets = Some h ->
  find_sheet "Lost_file" sheets = Some c ->
  find_sheet "Scenario_Simulation" sheets = Some s ->
  find_sheet "Cost_Structure" sheets = Some k ->
  is_sales_sheet h = false ->
  run (Workbook sheets) ui
  = (Raised (KeyError "City"),
     [Title; Markdown; ErrorBox (SheetsFound (map fst sheets)); SidebarHeader]).
Proof.
  intros Hh Hc Hs Hk Hschema.
  run_to_elasticity. rewrite Hh, Hc, Hs, Hk.
  destruct h; [discriminate Hschema | reflexivity ..].
Qed.

Lemma sales_schema_error_halts_before_kpis_witness :
  fst (run (Workbook
              [("Historical_Sales"%string, CostSheet [mkCost "Fruit" 100]);
               ("Lost_file"%string, CompetitorSheet []);
               ("Scenario_Simulation"%string, ScenarioSheet []);
               ("Cost_Structure"%string, CostSheet [])])
           (mkInputs None None None))
  = Raised (KeyError "City").
Proof.
  exact (f_equal fst
    (sales_schema_error_halts_before_kpis
       [("Historical_Sales"%string, CostSheet [mkCost "Fruit" 100]);
        ("Lost_file"%string, CompetitorSheet []);
        ("Scenario_Simulation"%string, ScenarioSheet []);
        ("Cost_Structure"%string, CostSheet [])]
       _ _ _ _ (mkInputs None None None)
       eq_refl eq_refl eq_refl eq_refl eq_refl)).
Defined.

(** X16: a scenario, cost or competitor sheet without its columns is noticed
    only where its chart is drawn: the run ends with an exception after all
    eight metrics (the simulator's among them) and two to four charts are
    already on the page; for the scenario sheet it is KeyError
    ('Price_Option') with two charts shown. *)
Theorem chart_schema_error_surfaces_late (sheets : list (string * sheet))
    (hist : list SalesRecord) (c s k : sheet) (ui : inputs) (e : fp) :
  loads sheets hist c s k ->
  elasticity (filter_by_city (city_filter ui hist) hist) = Done e ->
  is_scenario_sheet s && is_cost_sheet k && is_competitor_sheet c = false ->
  crashed (fst (run (Workbook sheets) ui))
  /\ metrics_shown (snd (run (Workbook sheets) ui)) = 8%nat
  /\ (2 <= charts_shown (snd (run (Workbook sheets) ui)) <= 4)%nat
  /\ shown_simulation (snd (run (Workbook sheets) ui))
     = Some (simulator (price_slider ui) (cost_per_unit ui))
  /\ (is_scenario_sheet s = false ->
      fst (run (Workbook sheets) ui) = Raised (KeyError "Price_Option")
      /\ charts_shown (snd (run (Workbook sheets) ui)) = 2%nat).
Proof.
  intros (Hh & Hc & Hs & Hk) He Hschema.
  run_to_elasticity. rewrite Hh, Hc, Hs, Hk. hold_frames. rewrite He.
  draw_charts s k c; try discriminate Hschema;
    (split; [eexists; reflexivity|];
     split; [reflexivity|];
     split; [unfold charts_shown; cbn; lia|];
     split; [reflexivity|];
     intros H; try discriminate H; split; reflexivity).
Qed.

Lemma chart_schema_error_surfaces_late_witness :
  metrics_shown
    (snd (run (Workbook
                 [("Historical_Sales"%string, SalesSheet sample_sales);
                  ("Lost_file"%string, CompetitorSheet []);
                  ("Scenario_Simulation"%string, ScenarioSheet []);
                  ("Cost_Structure"%string, ScenarioSheet [])])
              (mkInputs None None None)))
  = 8%nat.
Proof.
  refine (proj1 (proj2
    (chart_schema_error_surfaces_late
       [("Historical_Sales"%string, SalesSheet sample_sales);
        ("Lost_file"%string, CompetitorSheet []);
        ("Scenario_Simulation"%string, ScenarioSheet []);
        ("Cost_Structure"%string, ScenarioSheet [])]
       sample_sales _ _ _ (mkInputs None None None) _
       (conj eq_refl (conj eq_refl (conj eq_refl eq_refl))) _ eq_refl))).
  vm_compute. reflexivity.
Defined.

(** X17: whenever the workbook can be opened, the loader's debug message (an
    error box listing the workbook's sheet names) is the third element of the
    page, also on a run where every sheet loads and every chart is drawn. *)
Theorem debug_box_on_every_readable_run (sheets : list (string * sheet))
    (ui : inputs) :
  exists rest,
    snd (run (Workbook sheets) ui)
    = [Title; Markdown; ErrorBox (SheetsFound (map fst sheets))] ++ rest.
Proof.
  run_to_elasticity.
  destruct (find_sheet "Historical_Sales" sheets) as [h|];
    destruct (find_sheet "Lost_file" sheets) as [c|];
    destruct (find_sheet "Scenario_Simulation" sheets) as [s|];
    destruct (find_sheet "Cost_Structure" sheets) as [k|];
    try (exists []; reflexivity).
  destruct h as [hist | | |]; try (eexists; reflexivity).
  hold_frames.
  destruct (elasticity _) as [e | | e]; try (eexists; reflexivity).
  draw_charts s k c; eexists; reflexivity.
Qed.

End Runs.


(** * The estimator beyond the regular case *)

Section Estimator.

Lemma all_zero_Sxx (xs : list Q) :
  Sxx xs == 0 <-> Forall (fun x => x == 0) xs.
Proof.
  split.
  - intros H. apply (sumQ_sq_zero (fun v => v)). exact H.
  - intros H.
    assert (Hc : Forall (Qeq 0) xs).
    { apply Forall_forall. rewrite Forall_forall in H.
      intros x Hx. symmetry. now apply H. }
    destruct (constant_sums 0 xs Hc) as [_ E]. rewrite E. ring.
Qed.

(** A price column of zeros only: the first scaled column of polyfit is 0/0
    and lstsq raises. *)
Lemma elasticity_all_zero_prices (d : list SalesRecord) :
  d <> [] ->
  Forall (fun r => Price_per_Unit r == 0) d ->
  elasticity d = Raised LinAlgError.
Proof.
  intros Hne Hzero.
  destruct d as [|r rest]; [congruence|].
  assert (Hxx : Qzero (Sxx (map Price_per_Unit (r :: rest))) = true).
  { apply Qzero_true, all_zero_Sxx, Forall_map. exact Hzero. }
  unfold elasticity, elasticity_of, polyfit1.
  cbn [map] in *. cbn [List.length].
  rewrite !length_map, Nat.eqb_refl. cbn [negb].
  rewrite Hxx. reflexivity.
Qed.

(** X18: when the filtered rows all have Price_per_Unit 0 (at least one row),
    the run crashes at the elasticity line with numpy's LinAlgError: the four
    KPIs, the trend chart and the scatter chart are on the page, nothing of
    the sections below is. *)
Theorem zero_prices_crash_run (sheets : list (string * sheet))
    (hist : list SalesRecord) (c s k : sheet) (ui : inputs) :
  loads sheets hist c s k ->
  filter_by_city (city_filter ui hist) hist <> [] ->
  Forall (fun r => Price_per_Unit r == 0)
         (filter_by_city (city_filter ui hist) hist) ->
  run (Workbook sheets) ui
  = (Raised LinAlgError,
     page_before_elasticity (map fst sheets)
       (filter_by_city (city_filter ui hist) hist))
  /\ metrics_shown (snd (run (Workbook sheets) ui)) = 4%nat
  /\ charts_shown (snd (run (Workbook sheets) ui)) = 2%nat
  /\ shown_simulation (snd (run (Workbook sheets) ui)) = None.
Proof.
  intros Hload Hne Hzero.
  rewrite (run_stops_at_elasticity sheets hist c s k ui LinAlgError Hload
             (elasticity_all_zero_prices _ Hne Hzero)).
  repeat split; reflexivity.
Qed.

Lemma zero_prices_crash_run_witness :
  fst (run (Workbook
              [("Historical_Sales"%string, SalesSheet unpriced_sales);
               ("Lost_file"%string, CompetitorSheet []);
               ("Scenario_Simulation"%string, ScenarioSheet []);
               ("Cost_Structure"%string, CostSheet [mkCost "Fruit" 100])])
           (mkInputs None None None))
  = Raised LinAlgError.
Proof.
  refine (f_equal fst (proj1
    (zero_prices_crash_run
       [("Historical_Sales"%string, SalesSheet unpriced_sales);
        ("Lost_file"%string, CompetitorSheet []);
        ("Scenario_Simulation"%string, ScenarioSheet []);
        ("Cost_Structure"%string, CostSheet [mkCost "Fruit" 100])]
       unpriced_sales _ _ _ (mkInputs None None None)
       (conj eq_refl (conj eq_refl (conj eq_refl eq_refl))) _ _))).
  - discriminate.
  - repeat constructor.
Defined.

Lemma mean_zero_iff (x : Q) (xs : list Q) :
  mean (x :: xs) == 0 <-> sumQ (x :: xs) == 0.
Proof.
  unfold mean. pose proof (count_pos x xs) as Hn. split; intros H.
  - assert (E : sumQ (x :: xs)
                == sumQ (x :: xs) / count (x :: xs) * count (x :: xs))
      by (field; lra).
    rewrite E, H. ring.
  - rewrite H. field. lra.
Qed.

(** X19: whenever the elasticity line returns on rows whose Units_Sold add
    up to 0, the result is NaN or an infinity, never a finite number: the
    division by the zero mean demand follows numpy's float rules and raises
    nothing. *)
Theorem zero_demand_gives_non_finite (filtered_data : list SalesRecord)
    (v : fp) :
  elasticity filtered_data = Done v ->
  sumQ (map Units_Sold filtered_data) == 0 ->
  is_finite v = false.
Proof.
  unfold elasticity, elasticity_of. intros Hv Hsum.
  destruct filtered_data as [|r rest]; [discriminate Hv|].
  cbn [map] in *. rewrite !series_mean_cons in Hv.
  apply mean_zero_iff, Qzero_true in Hsum.
  unfold fdiv in Hv. rewrite Hsum in Hv.
  destruct (polyfit1 _ _) as [coeffs | | e]; try discriminate Hv.
  destruct (Qzero (mean (Price_per_Unit r :: map Price_per_Unit rest)));
    cbn [fmul] in Hv; [|destruct (Qzero (fst coeffs))];
    injection Hv as <-; reflexivity.
Qed.

Lemma zero_demand_gives_non_finite_witness :
  elasticity idle_sales = Done NaN /\ is_finite NaN = false.
Proof.
  assert (H : elasticity idle_sales = Done NaN) by (vm_compute; reflexivity).
  split; [exact H|].
  apply (zero_demand_gives_non_finite idle_sales NaN H).
  reflexivity.
Defined.

End Estimator.


(** * The sliders and what the page shows *)

Section Sliders.

Local Open Scope Z_scope.

Lemma slider_in_bounds (min_value max_value value : Z) (position : option Z) :
  min_value <= value <= max_value ->
  min_value <= slider min_value max_value value position <= max_value.
Proof.
  intros Hv. unfold slider.
  destruct position as [v|]; [|exact Hv].
  destruct ((min_value <=? v) && (v <=? max_value)) eqn:E; [|exact Hv].
  apply andb_true_iff in E. destruct E as [E1 E2].
  apply Z.leb_le in E1, E2. lia.
Qed.

Lemma simulator_on_sliders (price cost : Z) :
  20 <= price <= 35 -> 8 <= cost <= 18 ->
  4500 <= expected_demand (simulator price cost) <= 9000
  /\ 18000 <= expected_profit (simulator price cost)
  /\ expected_profit (simulator price cost)
     < expected_revenue (simulator price cost)
  /\ expected_revenue (simulator price cost) <= 187500.
Proof.
  intros Hp Hc.
  rewrite expected_demand_eq, expected_profit_eq, expected_revenue_eq.
  assert (Hd : 4500 <= 15000 - price * 300 <= 9000) by lia.
  assert (Hlow : 18000 <= (price - 18) * (15000 - price * 300)).
  { assert (E : (price - 18) * (15000 - price * 300) - 18000
                = 300 * ((price - 20) * (48 - price))) by ring.
    nia. }
  assert (Hcost : (price - 18) * (15000 - price * 300)
                  <= (price - cost) * (15000 - price * 300)) by nia.
  assert (Hpeak : price * (15000 - price * 300)
                  = 187500 - 300 * ((price - 25) * (price - 25))) by ring.
  pose proof (Z.square_nonneg (price - 25)).
  repeat split; try lia; nia.
Qed.

(** X23: whatever positions the widget state holds for the two sliders (also
    positions outside their ranges, which the sliders do not use), a page
    that shows the simulator shows an expected demand between 4500 and 9000,
    a profit of at least 18000 and below the revenue, and a revenue of at
    most 187500: no run displays a negative demand or a loss. *)
Theorem shown_simulation_within_slider_ranges (f : source_file) (ui : inputs)
    (s : simulation) :
  shown_simulation (snd (run f ui)) = Some s ->
  4500 <= expected_demand s <= 9000
  /\ 18000 <= expected_profit s
  /\ expected_profit s < expected_revenue s
  /\ expected_revenue s <= 187500.
Proof.
  intros Hs.
  destruct (run_simulation f ui) as [E | E]; rewrite E in Hs;
    [discriminate Hs|].
  injection Hs as <-.
  apply simulator_on_sliders.
  - apply slider_in_bounds. lia.
  - apply slider_in_bounds. lia.
Qed.

Lemma shown_simulation_within_slider_ranges_witness :
  shown_simulation
    (snd (run sample_book (mkInputs None (Some 90) (Some (-5)))))
  = Some (simulator 25 12)
  /\ 4500 <= expected_demand (simulator 25 12) <= 9000.
Proof.
  assert (H : shown_simulation
                (snd (run sample_book (mkInputs None (Some 90) (Some (-5)))))
              = Some (simulator 25 12)) by (vm_compute; reflexivity).
  split; [exact H|].
  exact (proj1 (shown_simulation_within_slider_ranges _ _ _ H)).
Defined.

End Sliders.
